(** * Morphogen MCP server: the script safety gate and execution pipeline

    A shallow embedding of [morphogen_mcp.py] (and of the compatibility
    tool of [src/morphogen/tools/system.py]) together with the properties
    the specification states about them.

    - Python [str] values are lists of Unicode code points ([list N]).
    - Python [bytes] values are [list byte].
    - The host (file system, child process, [ctx.info] log) is an explicit
      [world] threaded through a state-and-exception monad [M]; what the
      operating system answers to each call is read from an [oracle]. *)

From Stdlib Require Import ZArith NArith List Lia Bool.
From Stdlib Require Import Strings.String Strings.Ascii Strings.Byte.
From Stdlib Require Import Numbers.DecimalString.
From stdpp Require Import gmap list.

Open Scope N_scope.

(** ** Python strings *)

Abbreviation pystr := (list N).
Abbreviation bytes := (list byte).

(** An ASCII literal of the source, as code points. *)
Definition lit (s : string) : pystr :=
  map N_of_ascii (list_ascii_of_string s).

(** The non-ASCII characters the source uses in its messages. *)
Definition CROSS_MARK : pystr := [0x274C].           (* U+274C *)
Definition CHECK_MARK : pystr := [0x2705].           (* U+2705 *)
Definition WARNING_SIGN : pystr := [0x26A0; 0xFE0F]. (* U+26A0 U+FE0F *)
Definition INFO_SIGN : pystr := [0x2139; 0xFE0F].    (* U+2139 U+FE0F *)
Definition NL : pystr := [10].

(** [s.startswith(p)] *)
Fixpoint startswith (p s : pystr) : bool :=
  match p, s with
  | [], _ => true
  | _ :: _, [] => false
  | a :: p', b :: s' => (a =? b) && startswith p' s'
  end.

(** [needle in hay] for two strings: plain substring containment. *)
Fixpoint contains (needle hay : pystr) : bool :=
  startswith needle hay ||
  match hay with
  | [] => false
  | _ :: t => contains needle t
  end.

(** [sep.join(parts)] *)
Fixpoint join (sep : pystr) (parts : list pystr) : pystr :=
  match parts with
  | [] => []
  | [p] => p
  | p :: rest => p ++ sep ++ join sep rest
  end.

(** [str(n)] for an [int], as in the f-string [{proc.returncode}]. *)
Definition str_of_int (n : Z) : pystr :=
  lit (NilZero.string_of_int (Z.to_int n)).

(** [Py_UNICODE_ISSPACE]: the characters [str.strip()] removes. *)
Definition isspace (c : N) : bool :=
  ((0x09 <=? c) && (c <=? 0x0D)) || ((0x1C <=? c) && (c <=? 0x20)) ||
  (c =? 0x85) || (c =? 0xA0) || (c =? 0x1680) ||
  ((0x2000 <=? c) && (c <=? 0x200A)) ||
  (c =? 0x2028) || (c =? 0x2029) || (c =? 0x202F) || (c =? 0x205F) ||
  (c =? 0x3000).

Fixpoint lstrip (s : pystr) : pystr :=
  match s with
  | [] => []
  | c :: t => if isspace c then lstrip t else s
  end.

Definition rstrip (s : pystr) : pystr := rev (lstrip (rev s)).

(** [s.strip()] *)
Definition strip (s : pystr) : pystr := rstrip (lstrip s).

(** ** The UTF-8 codec

    [bytes.decode()] with its defaults is strict UTF-8: it raises
    [UnicodeDecodeError] ([None] here) on an invalid start byte, a missing
    or invalid continuation byte, an overlong form, a surrogate, or a code
    point above U+10FFFF. *)

Definition is_cont (b : N) : bool := (0x80 <=? b) && (b <=? 0xBF).

Fixpoint utf8_decode (bs : bytes) : option pystr :=
  match bs with
  | [] => Some []
  | b0 :: t0 =>
    let n0 := Byte.to_N b0 in
    if n0 <? 0x80 then cons n0 <$> utf8_decode t0
    else if (0xC2 <=? n0) && (n0 <=? 0xDF) then
      match t0 with
      | b1 :: t1 =>
        let n1 := Byte.to_N b1 in
        if is_cont n1
        then cons ((n0 - 0xC0) * 64 + (n1 - 0x80)) <$> utf8_decode t1
        else None
      | _ => None
      end
    else if (0xE0 <=? n0) && (n0 <=? 0xEF) then
      match t0 with
      | b1 :: b2 :: t2 =>
        let n1 := Byte.to_N b1 in
        let n2 := Byte.to_N b2 in
        if is_cont n1 && is_cont n2 &&
           negb ((n0 =? 0xE0) && (n1 <? 0xA0)) &&
           negb ((n0 =? 0xED) && (0x9F <? n1))
        then cons ((n0 - 0xE0) * 4096 + (n1 - 0x80) * 64 + (n2 - 0x80))
               <$> utf8_decode t2
        else None
      | _ => None
      end
    else if (0xF0 <=? n0) && (n0 <=? 0xF4) then
      match t0 with
      | b1 :: b2 :: b3 :: t3 =>
        let n1 := Byte.to_N b1 in
        let n2 := Byte.to_N b2 in
        let n3 := Byte.to_N b3 in
        if is_cont n1 && is_cont n2 && is_cont n3 &&
           negb ((n0 =? 0xF0) && (n1 <? 0x90)) &&
           negb ((n0 =? 0xF4) && (0x8F <? n1))
        then cons ((n0 - 0xF0) * 262144 + (n1 - 0x80) * 4096
                   + (n2 - 0x80) * 64 + (n3 - 0x80))
               <$> utf8_decode t3
        else None
      | _ => None
      end
    else None
  end.

Definition byte_of_N (n : N) : byte :=
  match Byte.of_N n with
  | Some b => b
  | None => x00
  end.

(** Encoding one code point; [None] is [UnicodeEncodeError] (a lone
    surrogate) or a value no [str] can hold. *)
Definition utf8_encode_cp (c : N) : option bytes :=
  if c <? 0x80 then Some [byte_of_N c]
  else if c <? 0x800 then
    Some [byte_of_N (0xC0 + c / 64); byte_of_N (0x80 + c mod 64)]
  else if c <? 0x10000 then
    if (0xD800 <=? c) && (c <=? 0xDFFF) then None
    else Some [byte_of_N (0xE0 + c / 4096);
               byte_of_N (0x80 + (c / 64) mod 64);
               byte_of_N (0x80 + c mod 64)]
  else if c <? 0x110000 then
    Some [byte_of_N (0xF0 + c / 262144);
          byte_of_N (0x80 + (c / 4096) mod 64);
          byte_of_N (0x80 + (c / 64) mod 64);
          byte_of_N (0x80 + c mod 64)]
  else None.

Fixpoint utf8_encode (s : pystr) : option bytes :=
  match s with
  | [] => Some []
  | c :: t =>
    match utf8_encode_cp c, utf8_encode t with
    | Some bc, Some bt => Some (bc ++ bt)
    | _, _ => None
    end
  end.

(** ** Exceptions *)

Inductive exn : Type :=
| UnicodeDecodeError (data : bytes)
| UnicodeEncodeError (text : pystr)
| FileExistsError (path : pystr)
| FileNotFoundError (path : pystr)
| HostError (is_Exception : bool) (text : pystr).

(** [isinstance(e, Exception)]: what [except Exception] catches. A host
    error may also be a bare [BaseException] (a cancellation, say). *)
Definition is_Exception (e : exn) : bool :=
  match e with
  | HostError b _ => b
  | _ => true
  end.

(** What the interpreter supplies and the repository does not define:
    the Unicode lower-case mapping of a non-ASCII character (it sees the
    characters before and after, as the final-sigma rule needs them), and
    the message text of the built-in exceptions. *)
Class Runtime : Type := {
  to_lower_full : pystr -> N -> pystr -> pystr;
  builtin_exn_str : exn -> pystr;
}.

Definition ascii_lower (c : N) : N :=
  if (65 <=? c) && (c <=? 90) then c + 32 else c.

Section Interpreter.
Context {R : Runtime}.

Fixpoint lower_from (before s : pystr) : pystr :=
  match s with
  | [] => []
  | c :: rest =>
    (if c <? 128 then [ascii_lower c] else to_lower_full before c rest)
      ++ lower_from (before ++ [c]) rest
  end.

(** [s.lower()] *)
Definition lower (s : pystr) : pystr := lower_from [] s.

(** [str(e)] *)
Definition str_exn (e : exn) : pystr :=
  match e with
  | HostError _ text => text
  | _ => builtin_exn_str e
  end.

End Interpreter.

(** ** The host: files, events, and what the operating system answers *)

Record file : Type := File { f_data : bytes; f_mode : N }.

Inductive event : Type :=
| EvInfo (msg : pystr)               (* ctx.info(msg) *)
| EvCreate (path : pystr)            (* a temporary file was created *)
| EvChmod (path : pystr) (mode : N)  (* os.chmod succeeded *)
| EvSpawn (argv : list pystr)        (* create_subprocess_exec was called *)
| EvRemove (path : pystr).           (* os.remove was called *)

Record world : Type := World {
  fs : gmap pystr file;
  trace : list event;
}.

(** What a finished child process hands back to [communicate()]. *)
Record completed : Type := Completed {
  c_stdout : bytes;
  c_stderr : bytes;
  c_returncode : Z;
}.

(** The answers of the operating system during one invocation. *)
Record oracle : Type := Oracle {
  tmp_dir : pystr;                 (* tempfile.gettempdir() *)
  tmp_rand : pystr;                (* the random part of the name *)
  tmp_fault : option exn;          (* NamedTemporaryFile(...) raises *)
  write_fault : option exn;        (* write or close raises (disk full) *)
  chmod_fault : option exn;
  spawn_fault : option exn;        (* create_subprocess_exec raises *)
  child_fs : gmap pystr file -> gmap pystr file; (* what the script did *)
  comm_result : exn + completed;   (* communicate() raises or returns *)
  remove_fault : option exn;
}.

(** [platform.system()], [platform.release()], [platform.version()] *)
Record host : Type := Host {
  platform_system : pystr;
  platform_release : pystr;
  platform_version : pystr;
}.

(** The octal literals [0o600] and [0o755]. *)
Definition mode_0o600 : N := 6 * 64.
Definition mode_0o755 : N := 7 * 64 + 5 * 8 + 5.

(** The MCP request context; only its presence and [info] are used. *)
Inductive Context : Type := FastMCPContext.

(** ** A state-and-exception monad *)

Inductive result (A : Type) : Type :=
| Ok (a : A)
| Raise (e : exn).
Arguments Ok {A} a.
Arguments Raise {A} e.

Definition M (A : Type) : Type := world -> result A * world.

Definition ret {A} (a : A) : M A := fun w => (Ok a, w).

Definition raise {A} (e : exn) : M A := fun w => (Raise e, w).

Definition bind {A B} (c : M A) (k : A -> M B) : M B :=
  fun w =>
    match c w with
    | (Ok a, w') => k a w'
    | (Raise e, w') => (Raise e, w')
    end.

(** [try: c  except Exception as e: h(e)] *)
Definition try_except {A} (c : M A) (h : exn -> M A) : M A :=
  fun w =>
    match c w with
    | (Ok a, w') => (Ok a, w')
    | (Raise e, w') => if is_Exception e then h e w' else (Raise e, w')
    end.

Notation "'let*' x ':=' c 'in' k" := (bind c (fun x => k))
  (at level 10, x name, c at level 100, k at level 200, only parsing).
Notation "c ';;' k" := (bind c (fun _ => k))
  (at level 100, k at level 200, right associativity, only parsing).

Definition log (e : event) : M unit :=
  fun w => (Ok tt, {| fs := fs w; trace := trace w ++ [e] |}).

(** [if ctx: ctx.info(msg)] *)
Definition info (ctx : option Context) (msg : pystr) : M unit :=
  match ctx with
  | Some _ => log (EvInfo msg)
  | None => ret tt
  end.

(** ** Operating-system calls *)

Section Pipeline.
Context {R : Runtime}.
Variable o : oracle.

(** The name [NamedTemporaryFile(suffix=".sh")] picks. *)
Definition tmp_name : pystr :=
  tmp_dir o ++ lit "/tmp" ++ tmp_rand o ++ lit ".sh".

(** [tempfile.NamedTemporaryFile("w", delete=False, suffix=".sh")]: the
    file is created exclusively, empty, with mode 0o600. *)
Definition NamedTemporaryFile : M pystr :=
  fun w =>
    match tmp_fault o with
    | Some e => (Raise e, w)
    | None =>
      match fs w !! tmp_name with
      | Some _ => (Raise (FileExistsError tmp_name), w)
      | None =>
        (Ok tmp_name,
         {| fs := <[tmp_name := File [] mode_0o600]> (fs w);
            trace := trace w ++ [EvCreate tmp_name] |})
      end
    end.

(** [tmp_script.write(text)] and the close at the end of the [with]
    block, on a POSIX host with a UTF-8 locale: the text is encoded as
    UTF-8 and line ends are written as they are. A fault leaves the file
    as it was. *)
Definition write_close (path text : pystr) : M unit :=
  fun w =>
    match utf8_encode text with
    | None => (Raise (UnicodeEncodeError text), w)
    | Some data =>
      match write_fault o with
      | Some e => (Raise e, w)
      | None =>
        (Ok tt,
         {| fs := alter (fun f => File data (f_mode f)) path (fs w);
            trace := trace w |})
      end
    end.

(** [os.chmod(path, mode)] *)
Definition os_chmod (path : pystr) (mode : N) : M unit :=
  fun w =>
    match chmod_fault o with
    | Some e => (Raise e, w)
    | None =>
      match fs w !! path with
      | None => (Raise (FileNotFoundError path), w)
      | Some f =>
        (Ok tt,
         {| fs := <[path := File (f_data f) mode]> (fs w);
            trace := trace w ++ [EvChmod path mode] |})
      end
    end.

(** [await asyncio.create_subprocess_exec("bash", tmp_path, ...)], both
    output streams piped. *)
Definition create_subprocess_exec (argv : list pystr) : M unit :=
  log (EvSpawn argv) ;;
  match spawn_fault o with
  | Some e => raise e
  | None => ret tt
  end.

(** [await proc.communicate()]: by the time it returns (or raises) the
    child has done to the files whatever it did. *)
Definition communicate : M completed :=
  fun w =>
    let w' := {| fs := child_fs o (fs w); trace := trace w |} in
    match comm_result o with
    | inl e => (Raise e, w')
    | inr c => (Ok c, w')
    end.

(** [b.decode()] *)
Definition decode (b : bytes) : M pystr :=
  match utf8_decode b with
  | Some text => ret text
  | None => raise (UnicodeDecodeError b)
  end.

(** [os.remove(path)] *)
Definition os_remove (path : pystr) : M unit :=
  log (EvRemove path) ;;
  fun w =>
    match remove_fault o with
    | Some e => (Raise e, w)
    | None =>
      match fs w !! path with
      | None => (Raise (FileNotFoundError path), w)
      | Some _ => (Ok tt, {| fs := delete path (fs w); trace := trace w |})
      end
    end.

(** ** [morphogen_mcp.py] *)

Definition blacklist : list pystr :=
  [lit "rm -rf /"; lit "shutdown"; lit "reboot"; lit ":(){ :|:& };:";
   lit "mkfs"; lit "dd if="].

Definition unsafe_report (bad : pystr) : pystr :=
  CROSS_MARK ++ lit " Detected unsafe command: `" ++ bad ++ lit "`" ++ NL
    ++ lit "Aborting installation.".

Definition passed_report : pystr :=
  CHECK_MARK ++ lit " Script passed basic validation.".

(** The [for bad in blacklist] loop with its early [return]. *)
Fixpoint first_unsafe (bl : list pystr) (script_text : pystr)
  : option pystr :=
  match bl with
  | [] => None
  | bad :: rest =>
    if contains bad script_text then Some bad
    else first_unsafe rest script_text
  end.

Definition validate_script (script_text : pystr) (ctx : option Context)
  : M pystr :=
  match first_unsafe blacklist script_text with
  | Some bad => ret (unsafe_report bad)
  | None =>
    info ctx (lit "Script validated successfully.") ;;
    ret passed_report
  end.

(** Lines 161-166: the [with] block and the [chmod]. *)
Definition materialize (script_text : pystr) : M pystr :=
  let* tmp_path := NamedTemporaryFile in
  write_close tmp_path script_text ;;
  os_chmod tmp_path mode_0o755 ;;
  ret tmp_path.

Definition succeeded_report (output : pystr) : pystr :=
  CHECK_MARK ++ lit " Installation succeeded:" ++ NL ++ NL ++ output.

Definition failed_report (returncode : Z) (error : pystr) : pystr :=
  CROSS_MARK ++ lit " Installation failed (exit code "
    ++ str_of_int returncode ++ lit "):" ++ NL ++ NL ++ error.

Definition error_report (e : exn) : pystr :=
  CROSS_MARK ++ lit " Error during installation: " ++ str_exn e.

(** The body of the [try] of [run_install_script]. *)
Definition run_install_script_try (script_text : pystr)
    (ctx : option Context) : M pystr :=
  let* tmp_path := materialize script_text in
  info ctx (lit "Executing install script: " ++ tmp_path) ;;
  create_subprocess_exec [lit "bash"; tmp_path] ;;
  let* proc := communicate in
  let* output := decode (c_stdout proc) in
  let output := strip output in
  let* error := decode (c_stderr proc) in
  let error := strip error in
  os_remove tmp_path ;;
  if (c_returncode proc =? 0)%Z
  then ret (succeeded_report output)
  else ret (failed_report (c_returncode proc) error).

Definition run_install_script (script_text : pystr)
    (ctx : option Context) : M pystr :=
  info ctx (lit "Writing install script to temporary file...") ;;
  try_except (run_install_script_try script_text ctx)
             (fun e => ret (error_report e)).

Definition errors_summary : pystr :=
  WARNING_SIGN ++ lit " Some errors were detected during installation.".
Definition running_summary : pystr :=
  CHECK_MARK ++ lit " The service appears to be installed and running.".
Definition review_summary : pystr :=
  INFO_SIGN
    ++ lit " Installation output reviewed. Manual verification may be needed.".

Definition summarize_result (output : pystr) : pystr :=
  if contains (lit "error") (lower output) then errors_summary
  else if contains (lit "success") (lower output)
          || contains (lit "started") (lower output)
  then running_summary
  else review_summary.

Definition installation_report (result summary : pystr) : pystr :=
  join NL [lit "=== Installation Result ==="; result; [];
           lit "=== Summary ==="; summary].

Definition install_from_llm_script (script_text : pystr)
    (ctx : option Context) : M pystr :=
  let* validation := validate_script script_text ctx in
  if contains CROSS_MARK validation then ret validation
  else
    let* result := run_install_script script_text ctx in
    let summary := summarize_result result in
    ret (installation_report result summary).

End Pipeline.

(** ** The compatibility tool *)

(** Truth value of an [Optional[str]]: [None] and the empty string are
    both false. *)
Definition truthy (system : option pystr) : bool :=
  match system with
  | Some (_ :: _) => true
  | _ => false
  end.

Definition macos_note : pystr :=
  NL ++ WARNING_SIGN
    ++ lit " Note: Some modern tools may not support MacOS 10.x or older versions.".

Section Compatibility.
Context {R : Runtime}.

(** [check_compatibility] of [morphogen_mcp.py]. *)
Definition check_compatibility (h : host) (component : pystr)
    (system : option pystr) (ctx : option Context) : M pystr :=
  let raw_system := platform_system h in
  let release := platform_release h in
  let version := platform_version h in
  let system :=
    if truthy system then default [] system
    else if bool_decide (raw_system = lit "Darwin") then lit "MacOS"
         else raw_system in
  let compatibility : gmap pystr (list pystr) :=
    list_to_map
      [(lit "docker", [lit "Ubuntu"; lit "Debian"; lit "Rocky";
                       lit "CentOS"; lit "MacOS"; lit "Windows"]);
       (lit "teleport", [lit "Linux"; lit "MacOS"; lit "Windows"]);
       (lit "netbox", [lit "Ubuntu"; lit "Debian"; lit "Rocky"])] in
  info ctx (lit "Checking compatibility for " ++ component ++ lit " on "
              ++ system) ;;
  let supported := default [] (compatibility !! lower component) in
  let status :=
    if bool_decide (system ∈ supported) then lit "compatible"
    else lit "unknown or unverified" in
  let response :=
    [component ++ lit " is " ++ status ++ lit " with " ++ system ++ lit ".";
     [];
     lit "System detected:";
     lit "- OS: " ++ system;
     lit "- Release: " ++ release;
     lit "- Version: " ++ version] in
  let response :=
    if bool_decide (system = lit "MacOS") && startswith (lit "10.") release
    then response ++ [macos_note]
    else response in
  ret (join NL response).

End Compatibility.

(** [src/morphogen/tools/system.py] *)
Module tools_system.

Record SystemInfo : Type := MkSystemInfo {
  os : pystr;
  release : pystr;
  version : pystr;
}.

(** [SystemInfo.current()] *)
Definition current (h : host) : SystemInfo :=
  {| os := platform_system h;
     release := platform_release h;
     version := platform_version h |}.

Definition get_normalized_os (raw_system : pystr) : pystr :=
  if bool_decide (raw_system = lit "Darwin") then lit "MacOS"
  else raw_system.

Definition COMPATIBILITY_MATRIX : gmap pystr (list pystr) :=
  list_to_map
    [(lit "docker", [lit "Ubuntu"; lit "Debian"; lit "Rocky";
                     lit "CentOS"; lit "MacOS"; lit "Windows"]);
     (lit "teleport", [lit "Linux"; lit "MacOS"; lit "Windows"]);
     (lit "netbox", [lit "Ubuntu"; lit "Debian"; lit "Rocky"])].

Section Tool.
Context {R : Runtime}.

Definition check_compatibility (h : host) (component : pystr)
    (system : option pystr) (ctx : option Context) : M pystr :=
  let sys_info := current h in
  let target_system :=
    if truthy system then default [] system
    else get_normalized_os (os sys_info) in
  info ctx (lit "Checking compatibility for " ++ component ++ lit " on "
              ++ target_system) ;;
  let supported :=
    default [] (COMPATIBILITY_MATRIX !! lower component) in
  let is_compatible := bool_decide (target_system ∈ supported) in
  let status :=
    if is_compatible then lit "compatible"
    else lit "unknown or unverified" in
  let response :=
    [component ++ lit " is " ++ status ++ lit " with " ++ target_system
       ++ lit ".";
     [];
     lit "System detected:";
     lit "- OS: " ++ target_system;
     lit "- Release: " ++ release sys_info;
     lit "- Version: " ++ version sys_info] in
  let response :=
    if bool_decide (target_system = lit "MacOS")
       && startswith (lit "10.") (release sys_info)
    then response ++ [macos_note]
    else response in
  ret (join NL response).

End Tool.
End tools_system.

(** ** Vocabulary of the properties *)

(** [needle] occurs in [hay] as a contiguous substring. *)
Definition occurs (needle hay : pystr) : Prop :=
  exists pre post, hay = pre ++ needle ++ post.

(** [text] contains an ASCII spelling of [kw] in some mix of cases. *)
Definition occurs_any_case (kw text : pystr) : Prop :=
  exists pre mid post,
    text = pre ++ mid ++ post /\
    Forall (fun c => c < 128) mid /\
    map ascii_lower mid = kw.


Definition is_spawn (e : event) : bool :=
  match e with EvSpawn _ => true | _ => false end.

Definition is_remove_of (path : pystr) (e : event) : bool :=
  match e with EvRemove p => bool_decide (p = path) | _ => false end.

(** How many times a trace calls [create_subprocess_exec]. *)
Definition spawn_count (t : list event) : nat :=
  length (filter (fun e => is_spawn e = true) t).

(** A computation calls [create_subprocess_exec] at most [n] times,
    whatever world it starts in and however it ends. *)
Definition spawns_at_most (n : nat) {A : Type} (c : M A) : Prop :=
  forall w,
    (spawn_count (trace (snd (c w))) <= spawn_count (trace w) + n)%nat.

(** How many times a trace calls [os.remove(path)]. *)
Definition remove_count (path : pystr) (t : list event) : nat :=
  length (filter (fun e => is_remove_of path e = true) t).

(** Steps 2 and 3 of [install_from_llm_script]: run, then summarize. *)
Definition run_stage {R : Runtime} (o : oracle) (script_text : pystr)
    (ctx : option Context) : M pystr :=
  let* result := run_install_script o script_text ctx in
  ret (installation_report result (summarize_result result)).

(** The first line of a compatibility report. *)
Definition verdict_line {R : Runtime} (component system : pystr) : pystr :=
  component ++ lit " is "
    ++ (if bool_decide
             (system ∈ default []
                (tools_system.COMPATIBILITY_MATRIX !! lower component))
        then lit "compatible" else lit "unknown or unverified")
    ++ lit " with " ++ system ++ lit ".".

(** Reading a file back as text, as a test of the round trip would; the
    repository itself never reads the file (bash does). *)
Definition read_text (w : world) (path : pystr) : option pystr :=
  match fs w !! path with
  | Some f => utf8_decode (f_data f)
  | None => None
  end.

(** The three octal digits of a mode: owner, group, other. *)
Definition perm_digits (mode : N) : N * N * N :=
  ((mode / 64) mod 8, (mode / 8) mod 8, mode mod 8).

(** ** Concrete hosts for the examples *)

(** A runtime whose non-ASCII characters have no case; the texts of the
    built-in exceptions are cut short. *)
Definition caseless_runtime : Runtime :=
  {| to_lower_full := fun _ c _ => [c];
     builtin_exn_str := fun e =>
       match e with
       | UnicodeDecodeError _ => lit "'utf-8' codec can't decode"
       | UnicodeEncodeError _ => lit "'utf-8' codec can't encode"
       | FileExistsError p => lit "[Errno 17] File exists: " ++ p
       | FileNotFoundError p => lit "[Errno 2] No such file or directory: " ++ p
       | HostError _ text => text
       end |}.

Definition empty_world : world := {| fs := ∅; trace := [] |}.

(** A host on which the script prints [stdout] and exits with [rc]. *)
Definition quiet_oracle (stdout : bytes) (rc : Z) : oracle :=
  {| tmp_dir := lit "/tmp";
     tmp_rand := lit "k3x9q2ab";
     tmp_fault := None;
     write_fault := None;
     chmod_fault := None;
     spawn_fault := None;
     child_fs := fun m => m;
     comm_result := inr {| c_stdout := stdout; c_stderr := []; c_returncode := rc |};
     remove_fault := None |}.

(** A host without [bash]: the spawn raises [FileNotFoundError]. *)
Definition no_bash_oracle : oracle :=
  {| tmp_dir := lit "/tmp";
     tmp_rand := lit "k3x9q2ab";
     tmp_fault := None;
     write_fault := None;
     chmod_fault := None;
     spawn_fault :=
       Some (HostError true (lit "[Errno 2] No such file or directory: 'bash'"));
     child_fs := fun m => m;
     comm_result := inr {| c_stdout := []; c_stderr := []; c_returncode := 0 |};
     remove_fault := None |}.

Definition ubuntu_22 : host :=
  {| platform_system := lit "Linux";
     platform_release := lit "5.15.0-91-generic";
     platform_version := lit "#101-Ubuntu SMP" |}.

Definition ubuntu_24 : host :=
  {| platform_system := lit "Linux";
     platform_release := lit "6.8.0-31-generic";
     platform_version := lit "#31-Ubuntu SMP" |}.

(** ** The other tools of [morphogen_mcp.py] *)

(** The dataclass [MorphogenIdentity]. *)
Record MorphogenIdentity : Type := MkMorphogenIdentity {
  name : pystr;
  role : pystr;
  mission : pystr;
  version : pystr;
}.

(** [MorphogenIdentity()]: every field at its default. *)
Definition MorphogenIdentity_default : MorphogenIdentity :=
  {| name := lit "morphogen";
     role := lit "Open-source Solutions Integrator";
     mission := lit "Help businesses build their digital infrastructure";
     version := lit "1.0.0" |}.

Definition to_string (self : MorphogenIdentity) : pystr :=
  lit "== Identity ==" ++ NL
    ++ lit "Name: " ++ name self ++ NL
    ++ lit "Role: " ++ role self ++ NL
    ++ lit "Mission: " ++ mission self ++ NL
    ++ lit "Version: " ++ version self.

Definition get_identity : pystr := to_string MorphogenIdentity_default.

Definition no_recommendation : pystr :=
  lit "No stack recommendation available for that purpose.".

Section Tools.
Context {R : Runtime}.

Definition recommend_os_stack (purpose : pystr) : pystr :=
  let recommendations : gmap pystr pystr :=
    list_to_map
      [(lit "web server",
        lit "Recommended stack: Ubuntu Server + Nginx + Certbot + Docker");
       (lit "data warehouse",
        lit "Recommended stack: Debian + PostgreSQL + Apache Superset");
       (lit "network monitoring",
        lit "Recommended stack: Rocky Linux + NetBox + Prometheus + Grafana");
       (lit "devops",
        lit "Recommended stack: Ubuntu + Jenkins + GitLab + Ansible")] in
  default no_recommendation (recommendations !! lower purpose).

End Tools.

(** [detect_os_info]: the returned [dict] has the keys "os", "release"
    and "version". *)
Definition detect_os_info (h : host) (ctx : option Context)
  : M (gmap pystr pystr) :=
  let system := platform_system h in
  let release := platform_release h in
  let version := platform_version h in
  let os_name :=
    if bool_decide (system = lit "Darwin") then lit "MacOS" else system in
  info ctx (lit "Detected OS: " ++ os_name ++ lit ", Release: " ++ release
              ++ lit ", Version: " ++ version) ;;
  ret (list_to_map [(lit "os", os_name); (lit "release", release);
                    (lit "version", version)]).

(** [d[key]] on a [dict]: the value, or [KeyError(key)]. *)
Inductive KeyError : Type := MkKeyError (key : pystr).

Definition getitem (d : gmap pystr pystr) (key : pystr)
  : KeyError + pystr :=
  match d !! key with
  | Some v => inr v
  | None => inl (MkKeyError key)
  end.

(** The fixed text of the prompt after the operating-system line. *)
Definition prompt_requirements : pystr :=
  NL ++ NL ++ lit "Requirements:" ++ NL
    ++ lit "- Use native package managers if possible (e.g., apt for Ubuntu)"
    ++ NL
    ++ lit "- Avoid interactive prompts (use -y flags)" ++ NL
    ++ lit "- No dangerous commands like rm -rf or reboot" ++ NL
    ++ lit "- Only installation and basic configuration" ++ NL
    ++ NL ++ lit "Return only the bash script." ++ NL.

(** The f-string looks up "os", "release" and "version" in this order;
    the first missing key raises. *)
Definition build_claude_prompt (component : pystr)
    (os_info : gmap pystr pystr) : KeyError + pystr :=
  match getitem os_info (lit "os") with
  | inl e => inl e
  | inr os =>
    match getitem os_info (lit "release") with
    | inl e => inl e
    | inr release =>
      match getitem os_info (lit "version") with
      | inl e => inl e
      | inr version =>
        inr (NL
             ++ lit "Please generate a safe and minimal bash installation script for the following:"
             ++ NL ++ NL
             ++ lit "Component: " ++ component ++ NL
             ++ lit "OS: " ++ os ++ lit " " ++ release ++ lit " (" ++ version
             ++ lit ")" ++ prompt_requirements)
      end
    end
  end.

(** [str(KeyError(key))] is [repr(key)]; for a key without quotes or
    escapes that is the key between single quotes. *)
Definition exn_of_KeyError (e : KeyError) : exn :=
  match e with
  | MkKeyError key => HostError true (lit "'" ++ key ++ lit "'")
  end.

Definition paste_back_notice : pystr :=
  WARNING_SIGN
    ++ lit " Please copy this prompt to Claude and paste the bash script output here for execution.".

Definition install_component_with_os_detection (h : host)
    (component : pystr) (ctx : option Context) : M pystr :=
  let* os_info := detect_os_info h ctx in
  match build_claude_prompt component os_info with
  | inl e => raise (exn_of_KeyError e)
  | inr prompt =>
    ret (join NL [lit "=== Claude Prompt for Installation ===";
                  prompt; []; paste_back_notice])
  end.

(** ** The other functions of [src/morphogen/tools/system.py] and
    [src/morphogen/resources/identity.py] *)

Module system_tools.

Section Tool.
Context {R : Runtime}.

Definition recommend_os_stack (purpose : pystr) : pystr :=
  let recommendations : gmap pystr pystr :=
    list_to_map
      [(lit "web server",
        lit "Recommended stack: Ubuntu Server + Nginx + Certbot + Docker");
       (lit "data warehouse",
        lit "Recommended stack: Debian + PostgreSQL + Apache Superset");
       (lit "network monitoring",
        lit "Recommended stack: Rocky Linux + NetBox + Prometheus + Grafana");
       (lit "devops",
        lit "Recommended stack: Ubuntu + Jenkins + GitLab + Ansible")] in
  default no_recommendation (recommendations !! lower purpose).

End Tool.

Definition get_compatibility_matrix : gmap pystr (list pystr) :=
  list_to_map
    [(lit "docker", [lit "Ubuntu"; lit "Debian"; lit "Rocky";
                     lit "CentOS"; lit "MacOS"; lit "Windows"]);
     (lit "teleport", [lit "Linux"; lit "MacOS"; lit "Windows"]);
     (lit "netbox", [lit "Ubuntu"; lit "Debian"; lit "Rocky"])].

End system_tools.

Module resources_identity.

Definition MorphogenIdentity_default : MorphogenIdentity :=
  {| name := lit "morphogen";
     role := lit "Open-source Solutions Integrator";
     mission := lit "Help businesses build their digital infrastructure by installing and configuring open-source systems.";
     version := lit "1.0.0" |}.

Definition get_identity : pystr := to_string MorphogenIdentity_default.

End resources_identity.

(** ** Vocabulary of the further properties *)

(** Every character is ASCII. *)
Definition is_ascii (s : pystr) : Prop := Forall (fun c => c < 128) s.

(** The child process leaves the file at [path] alone. *)
Definition child_keeps (o : oracle) (path : pystr) : Prop :=
  forall m, child_fs o m !! path = m !! path.

(** The events [run_install_script] may add to the trace: log lines and
    operations on its own temporary file. *)
Definition own_event (o : oracle) (e : event) : Prop :=
  match e with
  | EvInfo _ => True
  | EvCreate p => p = tmp_name o
  | EvChmod p mode => p = tmp_name o /\ mode = mode_0o755
  | EvSpawn argv => argv = [lit "bash"; tmp_name o]
  | EvRemove p => p = tmp_name o
  end.

(** A host that answers every call without a fault and whose child
    exits with [proc]. *)
Definition faultless (o : oracle) (proc : completed) : Prop :=
  tmp_fault o = None /\ write_fault o = None /\ chmod_fault o = None /\
  spawn_fault o = None /\ remove_fault o = None /\
  comm_result o = inr proc.

(** The report of a completed run. *)
Definition completed_report (returncode : Z) (output error : pystr)
  : pystr :=
  if (returncode =? 0)%Z then succeeded_report (strip output)
  else failed_report returncode (strip error).

(** The same host, with other bytes on the child's stderr or stdout. *)
Definition with_stderr (o : oracle) (err : bytes) : oracle :=
  {| tmp_dir := tmp_dir o; tmp_rand := tmp_rand o;
     tmp_fault := tmp_fault o; write_fault := write_fault o;
     chmod_fault := chmod_fault o; spawn_fault := spawn_fault o;
     child_fs := child_fs o;
     comm_result :=
       match comm_result o with
       | inl e => inl e
       | inr c => inr {| c_stdout := c_stdout c; c_stderr := err;
                         c_returncode := c_returncode c |}
       end;
     remove_fault := remove_fault o |}.

Definition with_stdout (o : oracle) (out : bytes) : oracle :=
  {| tmp_dir := tmp_dir o; tmp_rand := tmp_rand o;
     tmp_fault := tmp_fault o; write_fault := write_fault o;
     chmod_fault := chmod_fault o; spawn_fault := spawn_fault o;
     child_fs := child_fs o;
     comm_result :=
       match comm_result o with
       | inl e => inl e
       | inr c => inr {| c_stdout := out; c_stderr := c_stderr c;
                         c_returncode := c_returncode c |}
       end;
     remove_fault := remove_fault o |}.

(** A runtime in which the two marks the reports start with have no
    lower-case form of their own, as in Unicode. *)
Definition marks_caseless (R : Runtime) : Prop :=
  forall before after,
    to_lower_full before 0x274C after = [0x274C] /\
    to_lower_full before 0x2705 after = [0x2705].

(** A host whose child removes the script it is running. *)
Definition self_deleting_oracle : oracle :=
  {| tmp_dir := lit "/tmp";
     tmp_rand := lit "k3x9q2ab";
     tmp_fault := None;
     write_fault := None;
     chmod_fault := None;
     spawn_fault := None;
     child_fs := fun m => delete (lit "/tmp/tmpk3x9q2ab.sh") m;
     comm_result := inr {| c_stdout := []; c_stderr := []; c_returncode := 0 |};
     remove_fault := None |}.

(** The verdicts of the validator, whatever the context and the world. *)
Definition rejects (script_text : pystr) : Prop :=
  exists bad,
    In bad blacklist /\
    forall ctx w,
      validate_script script_text ctx w = (Ok (unsafe_report bad), w).

Definition accepts (script_text : pystr) : Prop :=
  forall ctx w, fst (validate_script script_text ctx w) = Ok passed_report.

(** From [w] to [w'] the trace only grew, by events that are the tool's
    own, and every file but the temporary one that the child leaves alone
    is as it was. *)
Definition own_effects (o : oracle) (w w' : world) : Prop :=
  (exists t, trace w' = trace w ++ t /\ Forall (own_event o) t) /\
  (forall p, p <> tmp_name o -> child_keeps o p ->
             fs w' !! p = fs w !! p).

Definition tidy (o : oracle) {A : Type} (c : M A) : Prop :=
  forall w, own_effects o w (snd (c w)).



(** The two lookup tables, as the source writes them. *)
Definition recommendation_table : list (pystr * pystr) :=
  [(lit "web server",
    lit "Recommended stack: Ubuntu Server + Nginx + Certbot + Docker");
   (lit "data warehouse",
    lit "Recommended stack: Debian + PostgreSQL + Apache Superset");
   (lit "network monitoring",
    lit "Recommended stack: Rocky Linux + NetBox + Prometheus + Grafana");
   (lit "devops",
    lit "Recommended stack: Ubuntu + Jenkins + GitLab + Ansible")].

Definition compatibility_table : list (pystr * list pystr) :=
  [(lit "docker", [lit "Ubuntu"; lit "Debian"; lit "Rocky";
                   lit "CentOS"; lit "MacOS"; lit "Windows"]);
   (lit "teleport", [lit "Linux"; lit "MacOS"; lit "Windows"]);
   (lit "netbox", [lit "Ubuntu"; lit "Debian"; lit "Rocky"])].

(** No line break in a field. *)
Definition one_line (s : pystr) : Prop := ~ In 10 s.

(** * Properties *)

(** ** Strings *)

Lemma startswith_spec (p s : pystr) :
  startswith p s = true <-> exists t, s = p ++ t.
Proof.
  revert s. induction p as [|a p IH]; intros s; simpl.
  - split; [intros _; exists s; reflexivity | reflexivity].
  - destruct s as [|b s].
    + split; [discriminate | intros [t Ht]; discriminate].
    + rewrite andb_true_iff, N.eqb_eq, IH. split.
      * intros [-> [t ->]]. exists t. reflexivity.
      * intros [t Ht]. injection Ht as -> ->. split; [reflexivity | eauto].
Qed.

Lemma contains_spec (needle hay : pystr) :
  contains needle hay = true <-> occurs needle hay.
Proof.
  unfold occurs. induction hay as [|c hay IH]; simpl.
  - rewrite orb_false_r, startswith_spec. split.
    + intros [t Ht]. exists [], t. exact Ht.
    + intros [pre [post H]]. destruct pre; [eauto | discriminate].
  - rewrite orb_true_iff, startswith_spec, IH. split.
    + intros [[t Ht] | [pre [post H]]].
      * exists [], t. exact Ht.
      * exists (c :: pre), post. simpl. rewrite H. reflexivity.
    + intros [[|c' pre] [post H]].
      * left. exists post. exact H.
      * right. injection H as _ H. eauto.
Qed.

Lemma contains_false (needle hay : pystr) :
  contains needle hay = false <-> ~ occurs needle hay.
Proof.
  rewrite <- contains_spec. destruct (contains needle hay); split;
    congruence.
Qed.

Lemma occurs_prefix (p t : pystr) : occurs p (p ++ t).
Proof. exists [], t. reflexivity. Qed.

(** ** The denylist loop *)

Lemma first_unsafe_Some (bl : list pystr) (s bad : pystr) :
  first_unsafe bl s = Some bad <->
  exists pre post,
    bl = pre ++ bad :: post /\ occurs bad s /\
    forall b, In b pre -> ~ occurs b s.
Proof.
  induction bl as [|b0 bl IH]; simpl.
  - split; [discriminate | intros [[|? ?] [? [? _]]]; discriminate].
  - destruct (contains b0 s) eqn:E.
    + apply contains_spec in E as Hocc. split.
      * intros [= <-]. exists [], bl. repeat split; [assumption | intros ? []].
      * intros [[|b1 pre] [post [Hbl [_ Hpre]]]].
        -- injection Hbl as -> _. reflexivity.
        -- injection Hbl as -> _. exfalso. apply (Hpre b1); simpl; auto.
    + apply contains_false in E as Hno. rewrite IH. split.
      * intros [pre [post [-> [Hocc Hpre]]]].
        exists (b0 :: pre), post. repeat split; [assumption |].
        intros b [<- | Hin]; auto.
      * intros [[|b1 pre] [post [Hbl [Hocc Hpre]]]].
        -- injection Hbl as -> _. contradiction.
        -- injection Hbl as _ ->. exists pre, post.
           repeat split; [assumption |]. intros b Hin. apply Hpre. simpl; auto.
Qed.

Lemma first_unsafe_None (bl : list pystr) (s : pystr) :
  first_unsafe bl s = None <-> forall b, In b bl -> ~ occurs b s.
Proof.
  induction bl as [|b0 bl IH]; simpl.
  - split; [intros _ ? [] | reflexivity].
  - destruct (contains b0 s) eqn:E.
    + apply contains_spec in E. split; [discriminate |].
      intros H. exfalso. apply (H b0); auto.
    + apply contains_false in E. rewrite IH. split.
      * intros H b [<- | Hin]; auto.
      * intros H b Hin. apply H. auto.
Qed.

Lemma first_unsafe_In (bl : list pystr) (s bad : pystr) :
  first_unsafe bl s = Some bad -> In bad bl /\ occurs bad s.
Proof.
  intros H. apply first_unsafe_Some in H as [pre [post [-> [Hocc _]]]].
  split; [apply in_elt | assumption].
Qed.

Lemma first_unsafe_hit (bl : list pystr) (s bad : pystr) :
  In bad bl -> occurs bad s -> exists bad', first_unsafe bl s = Some bad'.
Proof.
  intros Hin Hocc. destruct (first_unsafe bl s) eqn:E; [eauto |].
  exfalso. eapply first_unsafe_None; eauto.
Qed.

(** ** Lower-casing *)

Section Lowering.
Context {R : Runtime}.

Lemma lower_from_ascii_app (before mid post : pystr) :
  Forall (fun c => c < 128) mid ->
  lower_from before (mid ++ post)
  = map ascii_lower mid ++ lower_from (before ++ mid) post.
Proof.
  intros Hmid. revert before.
  induction Hmid as [|c mid Hc _ IH]; intros before; simpl.
  - rewrite app_nil_r. reflexivity.
  - apply N.ltb_lt in Hc. rewrite Hc. simpl. f_equal.
    rewrite IH, <- app_assoc. reflexivity.
Qed.

Lemma lower_from_skip (before pre rest : pystr) :
  exists X, lower_from before (pre ++ rest)
            = X ++ lower_from (before ++ pre) rest.
Proof.
  revert before. induction pre as [|c pre IH]; intros before; simpl.
  - exists []. rewrite app_nil_r. reflexivity.
  - destruct (IH (before ++ [c])) as [X HX]. rewrite HX.
    rewrite <- app_assoc. simpl.
    eexists (_ ++ X). rewrite <- app_assoc. reflexivity.
Qed.

(** An ASCII spelling of a keyword, in any mix of cases, shows up
    lower-cased in [text.lower()]. *)
Lemma lower_any_case (kw text : pystr) :
  occurs_any_case kw text -> occurs kw (lower text).
Proof.
  intros [pre [mid [post [-> [Hmid <-]]]]]. unfold lower.
  destruct (lower_from_skip [] pre (mid ++ post)) as [X ->].
  rewrite (lower_from_ascii_app _ mid post Hmid).
  exists X. eexists. reflexivity.
Qed.

End Lowering.

(** ** The validator and the gate *)

Lemma cross_mark_in_unsafe_report (bad : pystr) :
  contains CROSS_MARK (unsafe_report bad) = true.
Proof. apply contains_spec. unfold unsafe_report. apply occurs_prefix. Qed.

Lemma cross_mark_not_in_passed_report :
  contains CROSS_MARK passed_report = false.
Proof. vm_compute. reflexivity. Qed.

Lemma validate_script_rejects (s : pystr) (ctx : option Context)
    (w : world) (bad : pystr) :
  first_unsafe blacklist s = Some bad ->
  validate_script s ctx w = (Ok (unsafe_report bad), w).
Proof. intros H. unfold validate_script. rewrite H. reflexivity. Qed.

Lemma validate_script_accepts (s : pystr) (ctx : option Context)
    (w : world) :
  first_unsafe blacklist s = None ->
  validate_script s ctx w
  = (Ok passed_report,
     snd (info ctx (lit "Script validated successfully.") w)).
Proof.
  intros H. unfold validate_script. rewrite H.
  destruct ctx; reflexivity.
Qed.

(** C3: [validate_script] rejects naming the first denylisted substring,
    in the declaration order of the denylist, that occurs in the script:
    the text it returns is the cross mark, " Detected unsafe command: ",
    that substring between backquotes, a line break and "Aborting
    installation."; so the substring is in the text. It accepts, with
    the check mark and " Script passed basic validation.", when none
    occurs. *)
Theorem validate_script_first_match (script_text : pystr)
    (ctx : option Context) (w : world) :
  blacklist = [lit "rm -rf /"; lit "shutdown"; lit "reboot";
               lit ":(){ :|:& };:"; lit "mkfs"; lit "dd if="] /\
  (forall pre bad post,
      blacklist = pre ++ bad :: post ->
      occurs bad script_text ->
      (forall b, In b pre -> ~ occurs b script_text) ->
      validate_script script_text ctx w
      = (Ok ([0x274C] ++ lit " Detected unsafe command: `" ++ bad
               ++ lit "`" ++ [10] ++ lit "Aborting installation."), w) /\
      forall report w',
        validate_script script_text ctx w = (Ok report, w') ->
        occurs bad report) /\
  ((forall b, In b blacklist -> ~ occurs b script_text) ->
   fst (validate_script script_text ctx w)
   = Ok ([0x2705] ++ lit " Script passed basic validation.")).
Proof.
  split; [reflexivity |]. split.
  - intros pre bad post Hbl Hocc Hpre.
    assert (Hv : validate_script script_text ctx w
                 = (Ok (unsafe_report bad), w)).
    { apply validate_script_rejects. apply first_unsafe_Some. eauto. }
    split; [exact Hv |].
    intros report w' Hr. rewrite Hv in Hr. injection Hr as <- _.
    exists ([0x274C] ++ lit " Detected unsafe command: `"),
           (lit "`" ++ [10] ++ lit "Aborting installation.").
    unfold unsafe_report, CROSS_MARK, NL. rewrite <- app_assoc.
    reflexivity.
  - intros Hnone. apply first_unsafe_None in Hnone.
    rewrite validate_script_accepts by assumption. reflexivity.
Qed.

Lemma validate_script_first_match_witness :
  validate_script (lit "reboot; rm -rf /") None empty_world
  = (Ok ([0x274C] ++ lit " Detected unsafe command: `rm -rf /`" ++ [10]
           ++ lit "Aborting installation."), empty_world) /\
  fst (validate_script (lit "echo hello") None empty_world)
  = Ok ([0x2705] ++ lit " Script passed basic validation.").
Proof.
  split.
  - apply (proj1 (proj2 (validate_script_first_match
                           (lit "reboot; rm -rf /") None empty_world))
             [] (lit "rm -rf /")
             [lit "shutdown"; lit "reboot"; lit ":(){ :|:& };:";
              lit "mkfs"; lit "dd if="]).
    + reflexivity.
    + exists (lit "reboot; "), []. reflexivity.
    + intros b [].
  - apply (proj2 (proj2 (validate_script_first_match
                           (lit "echo hello") None empty_world))).
    apply first_unsafe_None. vm_compute. reflexivity.
Defined.

(** C9: the marker the orchestrator looks for is in the validator's text
    exactly when a denylisted substring occurs in the script, and the
    orchestrator goes on to run the script exactly when it is absent. *)
Theorem rejection_gate_matches_verdict {R : Runtime} (o : oracle)
    (script_text : pystr) (ctx : option Context) (w : world) :
  exists validation w1,
    validate_script script_text ctx w = (Ok validation, w1) /\
    (contains CROSS_MARK validation = true <->
     exists bad, In bad blacklist /\ occurs bad script_text) /\
    (contains CROSS_MARK validation = true ->
     install_from_llm_script o script_text ctx w = (Ok validation, w1)) /\
    (contains CROSS_MARK validation = false ->
     validation = passed_report /\
     install_from_llm_script o script_text ctx w
     = run_stage o script_text ctx w1).
Proof.
  destruct (first_unsafe blacklist script_text) as [bad|] eqn:E.
  - exists (unsafe_report bad), w.
    pose proof (validate_script_rejects script_text ctx w bad E) as Hv.
    pose proof (cross_mark_in_unsafe_report bad) as Hm.
    split; [exact Hv |]. split; [| split].
    + split; [intros _ | intros _; exact Hm].
      exists bad. apply first_unsafe_In in E. exact E.
    + intros _. unfold install_from_llm_script, bind.
      rewrite Hv, Hm. reflexivity.
    + rewrite Hm. discriminate.
  - eexists passed_report, _.
    pose proof (validate_script_accepts script_text ctx w E) as Hv.
    pose proof cross_mark_not_in_passed_report as Hm.
    split; [exact Hv |]. split; [| split].
    + rewrite Hm. split; [discriminate |].
      intros [bad [Hin Hocc]]. exfalso.
      eapply first_unsafe_None; eauto.
    + rewrite Hm. discriminate.
    + intros _. split; [reflexivity |].
      unfold install_from_llm_script, run_stage, bind at 1.
      rewrite Hv, Hm. reflexivity.
Qed.

Lemma rejection_gate_matches_verdict_witness :
  @install_from_llm_script caseless_runtime (quiet_oracle [] 0)
    (lit "sudo reboot") None empty_world
  = (Ok (unsafe_report (lit "reboot")), empty_world) /\
  @install_from_llm_script caseless_runtime (quiet_oracle [] 0)
    (lit "true") None empty_world
  = @run_stage caseless_runtime (quiet_oracle [] 0) (lit "true") None
      empty_world.
Proof.
  split.
  - destruct (@rejection_gate_matches_verdict caseless_runtime
                (quiet_oracle [] 0) (lit "sudo reboot") None empty_world)
      as (v & w1 & Hv & _ & Hrej & _).
    vm_compute in Hv. injection Hv as <- <-.
    apply Hrej. vm_compute. reflexivity.
  - destruct (@rejection_gate_matches_verdict caseless_runtime
                (quiet_oracle [] 0) (lit "true") None empty_world)
      as (v & w1 & Hv & _ & _ & Hacc).
    vm_compute in Hv. injection Hv as <- <-.
    apply Hacc. vm_compute. reflexivity.
Defined.

(** C2: on a script that contains a denylisted substring the orchestrator
    returns the validator's rejection report and leaves the world as it
    found it: no file is created, nothing is spawned, nothing is logged. *)
Theorem rejected_script_never_runs {R : Runtime} (o : oracle)
    (script_text : pystr) (ctx : option Context) (w : world)
    (bad : pystr) :
  In bad blacklist ->
  occurs bad script_text ->
  exists bad',
    In bad' blacklist /\ occurs bad' script_text /\
    validate_script script_text ctx w = (Ok (unsafe_report bad'), w) /\
    install_from_llm_script o script_text ctx w
    = (Ok (unsafe_report bad'), w).
Proof.
  intros Hin Hocc.
  destruct (first_unsafe_hit blacklist script_text bad Hin Hocc)
    as [bad' E].
  exists bad'. destruct (first_unsafe_In _ _ _ E) as [Hin' Hocc'].
  pose proof (validate_script_rejects script_text ctx w bad' E) as Hv.
  repeat split; try assumption.
  unfold install_from_llm_script, bind.
  rewrite Hv, cross_mark_in_unsafe_report. reflexivity.
Qed.

Lemma rejected_script_never_runs_witness :
  exists bad',
    In bad' blacklist /\ occurs bad' (lit "sudo mkfs /dev/sda") /\
    validate_script (lit "sudo mkfs /dev/sda") (Some FastMCPContext)
      empty_world = (Ok (unsafe_report bad'), empty_world) /\
    @install_from_llm_script caseless_runtime (quiet_oracle [] 0)
      (lit "sudo mkfs /dev/sda") (Some FastMCPContext) empty_world
    = (Ok (unsafe_report bad'), empty_world).
Proof.
  apply (@rejected_script_never_runs caseless_runtime (quiet_oracle [] 0)
           (lit "sudo mkfs /dev/sda") (Some FastMCPContext) empty_world
           (lit "mkfs")).
  - vm_compute. tauto.
  - exists (lit "sudo "), (lit " /dev/sda"). reflexivity.
Defined.

(** ** The classifier *)



(** ** Counting spawns *)

Lemma spawn_count_app (t1 t2 : list event) :
  spawn_count (t1 ++ t2) = (spawn_count t1 + spawn_count t2)%nat.
Proof. unfold spawn_count. rewrite filter_app, length_app. reflexivity. Qed.

Lemma spawn_count_one (e : event) :
  spawn_count [e] = if is_spawn e then 1%nat else 0%nat.
Proof.
  unfold spawn_count. rewrite filter_cons, filter_nil.
  destruct e; reflexivity.
Qed.

Lemma spawns_ret {A} (a : A) : spawns_at_most 0 (ret a).
Proof. intros w. simpl. lia. Qed.

Lemma spawns_raise {A} (e : exn) : spawns_at_most 0 (@raise A e).
Proof. intros w. simpl. lia. Qed.

Lemma spawns_weaken {A} (n m : nat) (c : M A) :
  (n <= m)%nat -> spawns_at_most n c -> spawns_at_most m c.
Proof. intros Hnm H w. specialize (H w). lia. Qed.

Lemma spawns_bind {A B} (n m : nat) (c : M A) (k : A -> M B) :
  spawns_at_most n c ->
  (forall a, spawns_at_most m (k a)) ->
  spawns_at_most (n + m) (bind c k).
Proof.
  intros Hc Hk w. unfold bind. specialize (Hc w).
  destruct (c w) as [[a | e] w1]; simpl in *.
  - specialize (Hk a w1). lia.
  - lia.
Qed.

Lemma spawns_try_except {A} (n m : nat) (c : M A) (h : exn -> M A) :
  spawns_at_most n c ->
  (forall e, spawns_at_most m (h e)) ->
  spawns_at_most (n + m) (try_except c h).
Proof.
  intros Hc Hh w. unfold try_except. specialize (Hc w).
  destruct (c w) as [[a | e] w1]; simpl in *.
  - lia.
  - destruct (is_Exception e); simpl.
    + specialize (Hh e w1). lia.
    + lia.
Qed.

Lemma spawns_log (e : event) :
  spawns_at_most (if is_spawn e then 1 else 0) (log e).
Proof.
  intros w. simpl. rewrite spawn_count_app, spawn_count_one.
  destruct (is_spawn e); lia.
Qed.

Lemma spawns_info (ctx : option Context) (msg : pystr) :
  spawns_at_most 0 (info ctx msg).
Proof.
  destruct ctx; [apply (spawns_log (EvInfo msg)) | apply spawns_ret].
Qed.

Ltac same_trace :=
  intros w; simpl;
  repeat match goal with
         | |- context [match ?x with _ => _ end] => destruct x
         end;
  simpl; rewrite ?spawn_count_app, ?spawn_count_one; simpl; lia.

Section Spawns.
Context {R : Runtime}.
Variable o : oracle.

Lemma spawns_NamedTemporaryFile : spawns_at_most 0 (NamedTemporaryFile o).
Proof. unfold NamedTemporaryFile. same_trace. Qed.

Lemma spawns_write_close (path text : pystr) :
  spawns_at_most 0 (write_close o path text).
Proof. unfold write_close. same_trace. Qed.

Lemma spawns_os_chmod (path : pystr) (mode : N) :
  spawns_at_most 0 (os_chmod o path mode).
Proof. unfold os_chmod. same_trace. Qed.

Lemma spawns_communicate : spawns_at_most 0 (communicate o).
Proof. unfold communicate. same_trace. Qed.

Lemma spawns_decode (b : bytes) : spawns_at_most 0 (decode b).
Proof. unfold decode. destruct (utf8_decode b); same_trace. Qed.

Lemma spawns_os_remove (path : pystr) :
  spawns_at_most 0 (os_remove o path).
Proof.
  unfold os_remove. apply (spawns_bind 0 0).
  - apply (spawns_log (EvRemove path)).
  - intros _. same_trace.
Qed.

Lemma spawns_create_subprocess_exec (argv : list pystr) :
  spawns_at_most 1 (create_subprocess_exec o argv).
Proof.
  unfold create_subprocess_exec. apply (spawns_bind 1 0).
  - apply (spawns_log (EvSpawn argv)).
  - intros _. destruct (spawn_fault o); [apply spawns_raise | apply spawns_ret].
Qed.

Lemma spawns_materialize (script_text : pystr) :
  spawns_at_most 0 (materialize o script_text).
Proof.
  unfold materialize.
  apply (spawns_bind 0 0); [apply spawns_NamedTemporaryFile | intros p].
  apply (spawns_bind 0 0); [apply spawns_write_close | intros _].
  apply (spawns_bind 0 0); [apply spawns_os_chmod | intros _].
  apply spawns_ret.
Qed.

Lemma spawns_run_install_script_try (script_text : pystr)
    (ctx : option Context) :
  spawns_at_most 1 (run_install_script_try o script_text ctx).
Proof.
  unfold run_install_script_try.
  apply (spawns_bind 0 1); [apply spawns_materialize | intros p].
  apply (spawns_bind 0 1); [apply spawns_info | intros _].
  apply (spawns_bind 1 0); [apply spawns_create_subprocess_exec | intros _].
  apply (spawns_bind 0 0); [apply spawns_communicate | intros proc].
  apply (spawns_bind 0 0); [apply spawns_decode | intros output].
  apply (spawns_bind 0 0); [apply spawns_decode | intros error].
  apply (spawns_bind 0 0); [apply spawns_os_remove | intros _].
  destruct (c_returncode proc =? 0)%Z; apply spawns_ret.
Qed.

Lemma spawns_run_install_script (script_text : pystr)
    (ctx : option Context) :
  spawns_at_most 1 (run_install_script o script_text ctx).
Proof.
  unfold run_install_script.
  apply (spawns_bind 0 1); [apply spawns_info | intros _].
  apply (spawns_try_except 1 0).
  - apply spawns_run_install_script_try.
  - intros e. apply spawns_ret.
Qed.

Lemma spawns_validate_script (script_text : pystr)
    (ctx : option Context) :
  spawns_at_most 0 (validate_script script_text ctx).
Proof.
  unfold validate_script.
  destruct (first_unsafe blacklist script_text); [apply spawns_ret |].
  apply (spawns_bind 0 0); [apply spawns_info | intros _; apply spawns_ret].
Qed.

Lemma spawns_install_from_llm_script (script_text : pystr)
    (ctx : option Context) :
  spawns_at_most 1 (install_from_llm_script o script_text ctx).
Proof.
  unfold install_from_llm_script.
  apply (spawns_bind 0 1); [apply spawns_validate_script | intros v].
  destruct (contains CROSS_MARK v).
  - apply (spawns_weaken 0 1); [lia | apply spawns_ret].
  - apply (spawns_bind 1 0); [apply spawns_run_install_script | intros r].
    apply spawns_ret.
Qed.

End Spawns.

(** C7: one invocation of [run_install_script] or of
    [install_from_llm_script] calls [create_subprocess_exec] at most
    once, on every path: there is no retry after a non-zero exit or a
    failed spawn. *)
Theorem at_most_one_spawn {R : Runtime} (o : oracle) (script_text : pystr)
    (ctx : option Context) (w : world) :
  (spawn_count (trace (snd (run_install_script o script_text ctx w)))
   <= spawn_count (trace w) + 1)%nat /\
  (spawn_count (trace (snd (install_from_llm_script o script_text ctx w)))
   <= spawn_count (trace w) + 1)%nat.
Proof.
  split.
  - apply spawns_run_install_script.
  - apply spawns_install_from_llm_script.
Qed.

(** ** The UTF-8 round trip *)

Lemma to_N_byte_of_N (n : N) : n < 256 -> Byte.to_N (byte_of_N n) = n.
Proof.
  intros Hn. unfold byte_of_N. destruct (Byte.of_N n) as [b|] eqn:E.
  - apply Byte.to_of_N. exact E.
  - apply Byte.of_N_None_iff in E. lia.
Qed.

Lemma split_sextets (c : N) :
  let q1 := c / 64 in
  let q2 := c / 4096 in
  let q3 := c / 262144 in
  c = 64 * q1 + c mod 64 /\ c mod 64 < 64 /\
  q1 = 64 * q2 + q1 mod 64 /\ q1 mod 64 < 64 /\
  q2 = 64 * q3 + q2 mod 64 /\ q2 mod 64 < 64.
Proof.
  intros q1 q2 q3.
  assert (Hq2 : q2 = q1 / 64).
  { unfold q1, q2. rewrite N.Div0.div_div. reflexivity. }
  assert (Hq3 : q3 = q2 / 64).
  { unfold q2, q3. rewrite N.Div0.div_div. reflexivity. }
  rewrite Hq3, Hq2.
  repeat split;
    solve [apply N.div_mod; discriminate | apply N.mod_lt; discriminate].
Qed.

Ltac solve_test :=
  repeat match goal with
         | |- context [?a <? ?b] => destruct (N.ltb_spec a b)
         | |- context [?a <=? ?b] => destruct (N.leb_spec a b)
         | |- context [?a =? ?b] => destruct (N.eqb_spec a b)
         end;
  cbn [andb negb orb]; first [reflexivity | exfalso; lia].

(** Settle the condition of the outermost [if] by arithmetic. *)
Ltac head_tests :=
  repeat match goal with
         | |- (if ?t then _ else _) = _ =>
           first [ assert (t = true) as -> by solve_test
                 | assert (t = false) as -> by solve_test ]
         end.

Lemma utf8_decode_encode_cp (c : N) (bc rest : bytes) :
  utf8_encode_cp c = Some bc ->
  utf8_decode (bc ++ rest) = cons c <$> utf8_decode rest.
Proof.
  unfold utf8_encode_cp.
  destruct (split_sextets c) as (E1 & L1 & E2 & L2 & E3 & L3).
  set (r1 := c mod 64) in *. set (r2 := (c / 64) mod 64) in *.
  set (r3 := (c / 4096) mod 64) in *.
  set (q1 := c / 64) in *. set (q2 := c / 4096) in *.
  set (q3 := c / 262144) in *.
  clearbody r1 r2 r3 q1 q2 q3.
  destruct (N.ltb_spec c 0x80); [| destruct (N.ltb_spec c 0x800);
    [| destruct (N.ltb_spec c 0x10000);
      [| destruct (N.ltb_spec c 0x110000); [| discriminate]]]].
  - intros [= <-]. cbn [app utf8_decode].
    rewrite to_N_byte_of_N by lia. head_tests. reflexivity.
  - intros [= <-]. cbn [app utf8_decode].
    rewrite !to_N_byte_of_N by lia. unfold is_cont. head_tests.
    do 2 f_equal. lia.
  - destruct (N.leb_spec 0xD800 c); destruct (N.leb_spec c 0xDFFF);
      cbn [andb]; try discriminate;
      intros [= <-]; cbn [app utf8_decode];
      rewrite !to_N_byte_of_N by lia; unfold is_cont; head_tests;
      do 2 f_equal; lia.
  - intros [= <-]. cbn [app utf8_decode].
    rewrite !to_N_byte_of_N by lia. unfold is_cont. head_tests.
    do 2 f_equal. lia.
Qed.

Lemma utf8_decode_encode (s : pystr) (bs : bytes) :
  utf8_encode s = Some bs -> utf8_decode bs = Some s.
Proof.
  revert bs. induction s as [|c s IH]; intros bs; simpl.
  - intros [= <-]. reflexivity.
  - destruct (utf8_encode_cp c) as [bc|] eqn:Ec; [| discriminate].
    destruct (utf8_encode s) as [bt|]; [| discriminate].
    intros [= <-]. rewrite (utf8_decode_encode_cp c bc bt Ec).
    rewrite (IH bt eq_refl). reflexivity.
Qed.

(** The other direction: whatever the strict decoder accepts is the
    encoding of the text it returns. *)

Lemma byte_of_to_N (b : byte) : byte_of_N (Byte.to_N b) = b.
Proof. unfold byte_of_N. rewrite Byte.of_to_N. reflexivity. Qed.

Lemma sextets_unique (n a b c d : N) :
  n = a * 262144 + b * 4096 + c * 64 + d ->
  b < 64 -> c < 64 -> d < 64 ->
  n / 262144 = a /\ (n / 4096) mod 64 = b /\ (n / 64) mod 64 = c /\
  n mod 64 = d /\ n / 4096 = a * 64 + b /\ n / 64 = a * 4096 + b * 64 + c.
Proof.
  intros Hn Hb Hc Hd.
  assert (H64 : n / 64 = a * 4096 + b * 64 + c).
  { symmetry. apply N.div_unique with d; lia. }
  assert (H4096 : n / 4096 = a * 64 + b).
  { symmetry. apply N.div_unique with (c * 64 + d); lia. }
  repeat split.
  - symmetry. apply N.div_unique with (b * 4096 + c * 64 + d); lia.
  - rewrite H4096. symmetry. apply N.mod_unique with a; lia.
  - rewrite H64. symmetry. apply N.mod_unique with (a * 64 + b); lia.
  - symmetry. apply N.mod_unique with (a * 4096 + b * 64 + c); lia.
  - exact H4096.
  - exact H64.
Qed.

Ltac bool_hyps :=
  repeat match goal with
         | H : _ && _ = true |- _ => apply andb_true_iff in H as [? ?]
         | H : negb _ = true |- _ => apply negb_true_iff in H
         | H : _ && _ = false |- _ => apply andb_false_iff in H as [? | ?]
         | H : (_ <? _) = true |- _ => apply N.ltb_lt in H
         | H : (_ <? _) = false |- _ => apply N.ltb_ge in H
         | H : (_ <=? _) = true |- _ => apply N.leb_le in H
         | H : (_ <=? _) = false |- _ => apply N.leb_gt in H
         | H : (_ =? _) = true |- _ => apply N.eqb_eq in H
         | H : (_ =? _) = false |- _ => apply N.eqb_neq in H
         end.

Lemma fmap_cons_Some (c : N) (o : option pystr) (s : pystr) :
  cons c <$> o = Some s -> exists s', o = Some s' /\ s = c :: s'.
Proof. destruct o; [intros [= <-]; eauto | discriminate]. Qed.

Lemma utf8_encode_cons (c : N) (s : pystr) (bc bt : bytes) :
  utf8_encode_cp c = Some bc ->
  utf8_encode s = Some bt ->
  utf8_encode (c :: s) = Some (bc ++ bt).
Proof. intros Hc Hs. simpl. rewrite Hc, Hs. reflexivity. Qed.

Lemma utf8_encode_decode (bs : bytes) (s : pystr) :
  utf8_decode bs = Some s -> utf8_encode s = Some bs.
Proof.
  revert s.
  induction bs as [bs IH] using (induction_ltof1 _ (@length byte)).
  unfold ltof in IH. intros s.
  destruct bs as [|b0 t0]; [intros [= <-]; reflexivity |].
  cbn [utf8_decode].
  remember (Byte.to_N b0) as n0 eqn:En0.
  destruct (n0 <? 0x80) eqn:T1.
  { intros H. apply fmap_cons_Some in H as (s' & Hs' & ->).
    apply (utf8_encode_cons n0 s' [b0] t0).
    - unfold utf8_encode_cp. rewrite T1, En0, byte_of_to_N. reflexivity.
    - apply IH; [simpl; lia | exact Hs']. }
  destruct ((0xC2 <=? n0) && (n0 <=? 0xDF)) eqn:T2.
  { destruct t0 as [|b1 t1]; [discriminate |].
    remember (Byte.to_N b1) as n1 eqn:En1.
    unfold is_cont. destruct ((0x80 <=? n1) && (n1 <=? 0xBF)) eqn:C1;
      [| discriminate].
    intros H. apply fmap_cons_Some in H as (s' & Hs' & ->).
    apply (utf8_encode_cons _ s' [b0; b1] t1).
    - bool_hyps.
      destruct (sextets_unique ((n0 - 0xC0) * 64 + (n1 - 0x80))
                  0 0 (n0 - 0xC0) (n1 - 0x80)) as (_ & _ & _ & Hr & _ & Hq);
        try lia.
      unfold utf8_encode_cp. head_tests. rewrite Hq, Hr.
      replace (0xC0 + (0 * 4096 + 0 * 64 + (n0 - 0xC0))) with n0 by lia.
      replace (0x80 + (n1 - 0x80)) with n1 by lia.
      rewrite En0, En1, !byte_of_to_N. reflexivity.
    - apply IH; [simpl; lia | exact Hs']. }
  destruct ((0xE0 <=? n0) && (n0 <=? 0xEF)) eqn:T3.
  { destruct t0 as [|b1 [|b2 t2]]; try discriminate.
    remember (Byte.to_N b1) as n1 eqn:En1.
    remember (Byte.to_N b2) as n2 eqn:En2.
    unfold is_cont.
    destruct ((0x80 <=? n1) && (n1 <=? 0xBF) &&
              ((0x80 <=? n2) && (n2 <=? 0xBF)) &&
              negb ((n0 =? 0xE0) && (n1 <? 0xA0)) &&
              negb ((n0 =? 0xED) && (0x9F <? n1))) eqn:C; [| discriminate].
    intros H. apply fmap_cons_Some in H as (s' & Hs' & ->).
    apply (utf8_encode_cons _ s' [b0; b1; b2] t2).
    - bool_hyps;
        (destruct (sextets_unique
                     ((n0 - 0xE0) * 4096 + (n1 - 0x80) * 64 + (n2 - 0x80))
                     0 (n0 - 0xE0) (n1 - 0x80) (n2 - 0x80))
           as (_ & _ & Hr2 & Hr1 & Hq2 & _); try lia);
        unfold utf8_encode_cp; head_tests; rewrite Hq2, Hr2, Hr1;
        replace (0xE0 + (0 * 64 + (n0 - 0xE0))) with n0 by lia;
        replace (0x80 + (n1 - 0x80)) with n1 by lia;
        replace (0x80 + (n2 - 0x80)) with n2 by lia;
        rewrite En0, En1, En2, !byte_of_to_N; reflexivity.
    - apply IH; [simpl; lia | exact Hs']. }
  destruct ((0xF0 <=? n0) && (n0 <=? 0xF4)) eqn:T4; [| discriminate].
  destruct t0 as [|b1 [|b2 [|b3 t3]]]; try discriminate.
  remember (Byte.to_N b1) as n1 eqn:En1.
  remember (Byte.to_N b2) as n2 eqn:En2.
  remember (Byte.to_N b3) as n3 eqn:En3.
  unfold is_cont.
  destruct ((0x80 <=? n1) && (n1 <=? 0xBF) &&
            ((0x80 <=? n2) && (n2 <=? 0xBF)) &&
            ((0x80 <=? n3) && (n3 <=? 0xBF)) &&
            negb ((n0 =? 0xF0) && (n1 <? 0x90)) &&
            negb ((n0 =? 0xF4) && (0x8F <? n1))) eqn:C; [| discriminate].
  intros H. apply fmap_cons_Some in H as (s' & Hs' & ->).
  apply (utf8_encode_cons _ s' [b0; b1; b2; b3] t3).
  - bool_hyps;
      (destruct (sextets_unique
                   ((n0 - 0xF0) * 262144 + (n1 - 0x80) * 4096
                    + (n2 - 0x80) * 64 + (n3 - 0x80))
                   (n0 - 0xF0) (n1 - 0x80) (n2 - 0x80) (n3 - 0x80))
         as (Hq3 & Hr3 & Hr2 & Hr1 & _ & _); try lia);
      unfold utf8_encode_cp; head_tests; rewrite Hq3, Hr3, Hr2, Hr1;
      replace (0xF0 + (n0 - 0xF0)) with n0 by lia;
      replace (0x80 + (n1 - 0x80)) with n1 by lia;
      replace (0x80 + (n2 - 0x80)) with n2 by lia;
      replace (0x80 + (n3 - 0x80)) with n3 by lia;
      rewrite En0, En1, En2, En3, !byte_of_to_N; reflexivity.
  - apply IH; [simpl; lia | exact Hs'].
Qed.

(** The strict decoder accepts exactly the UTF-8 encodings. *)
Lemma utf8_decode_iff_encode (bs : bytes) (s : pystr) :
  utf8_decode bs = Some s <-> utf8_encode s = Some bs.
Proof. split; [apply utf8_encode_decode | apply utf8_decode_encode]. Qed.

(** ** Materializing the script *)

(** Case analysis on every [match] a hypothesis is stuck on. *)
Ltac invert_run H :=
  repeat (match type of H with
          | context [match ?x with _ => _ end] =>
            let E := fresh "E" in destruct x eqn:E
          end; simpl in H; try discriminate H).

Lemma bind_Ok {A B} (c : M A) (k : A -> M B) (w : world) (b : B)
    (w' : world) :
  bind c k w = (Ok b, w') ->
  exists a w1, c w = (Ok a, w1) /\ k a w1 = (Ok b, w').
Proof.
  unfold bind. destruct (c w) as [[a | e] w1]; [eauto | discriminate].
Qed.

Lemma ret_Ok {A} (a b : A) (w w' : world) :
  ret a w = (Ok b, w') -> b = a /\ w' = w.
Proof. unfold ret. intros [= -> ->]. auto. Qed.

Lemma log_Ok (e : event) (w : world) (u : unit) (w' : world) :
  log e w = (Ok u, w') ->
  w' = {| fs := fs w; trace := trace w ++ [e] |}.
Proof. unfold log. intros [= _ <-]. reflexivity. Qed.

Lemma info_Ok (ctx : option Context) (msg : pystr) (w : world) (u : unit)
    (w' : world) :
  info ctx msg w = (Ok u, w') ->
  fs w' = fs w /\
  trace w' = trace w ++ match ctx with
                        | Some _ => [EvInfo msg]
                        | None => []
                        end.
Proof.
  destruct ctx; simpl.
  - intros H. apply log_Ok in H as ->. auto.
  - intros [= _ <-]. rewrite app_nil_r. auto.
Qed.

Section Inversion.
Variable o : oracle.

Lemma NamedTemporaryFile_Ok (w : world) (p : pystr) (w' : world) :
  NamedTemporaryFile o w = (Ok p, w') ->
  p = tmp_name o /\
  fs w !! p = None /\
  w' = {| fs := <[p := File [] mode_0o600]> (fs w);
          trace := trace w ++ [EvCreate p] |}.
Proof.
  unfold NamedTemporaryFile. intros H. invert_run H.
  injection H as <- <-. auto.
Qed.

Lemma write_close_Ok (path text : pystr) (w : world) (u : unit)
    (w' : world) :
  write_close o path text w = (Ok u, w') ->
  exists data,
    utf8_encode text = Some data /\
    w' = {| fs := alter (fun f => File data (f_mode f)) path (fs w);
            trace := trace w |}.
Proof.
  unfold write_close. intros H. invert_run H.
  injection H as _ <-. eauto.
Qed.

Lemma os_chmod_Ok (path : pystr) (mode : N) (w : world) (u : unit)
    (w' : world) :
  os_chmod o path mode w = (Ok u, w') ->
  exists f,
    fs w !! path = Some f /\
    w' = {| fs := <[path := File (f_data f) mode]> (fs w);
            trace := trace w ++ [EvChmod path mode] |}.
Proof.
  unfold os_chmod. intros H. invert_run H.
  injection H as _ <-. eauto.
Qed.

Lemma create_subprocess_exec_Ok (argv : list pystr) (w : world)
    (u : unit) (w' : world) :
  create_subprocess_exec o argv w = (Ok u, w') ->
  spawn_fault o = None /\
  w' = {| fs := fs w; trace := trace w ++ [EvSpawn argv] |}.
Proof.
  unfold create_subprocess_exec. intros H.
  apply bind_Ok in H as (u1 & w1 & Hlog & H).
  apply log_Ok in Hlog as ->.
  destruct (spawn_fault o); [discriminate |].
  apply ret_Ok in H as [_ ->]. auto.
Qed.

Lemma communicate_Ok (w : world) (proc : completed) (w' : world) :
  communicate o w = (Ok proc, w') ->
  comm_result o = inr proc /\
  w' = {| fs := child_fs o (fs w); trace := trace w |}.
Proof.
  unfold communicate. intros H. invert_run H.
  injection H as <- <-. auto.
Qed.

Lemma decode_Ok (b : bytes) (w : world) (text : pystr) (w' : world) :
  decode b w = (Ok text, w') -> utf8_decode b = Some text /\ w' = w.
Proof.
  unfold decode. destruct (utf8_decode b); [| discriminate].
  intros H. apply ret_Ok in H as [-> ->]. auto.
Qed.

Lemma os_remove_Ok (path : pystr) (w : world) (u : unit) (w' : world) :
  os_remove o path w = (Ok u, w') ->
  w' = {| fs := delete path (fs w); trace := trace w ++ [EvRemove path] |}.
Proof.
  unfold os_remove. intros H.
  apply bind_Ok in H as (u1 & w1 & Hlog & H).
  apply log_Ok in Hlog as ->. simpl in H. invert_run H.
  injection H as _ <-. reflexivity.
Qed.

Lemma materialize_Ok (script_text : pystr) (w : world) (p : pystr)
    (w' : world) :
  materialize o script_text w = (Ok p, w') ->
  exists data,
    p = tmp_name o /\
    fs w !! p = None /\
    utf8_encode script_text = Some data /\
    fs w' = <[p := File data mode_0o755]> (fs w) /\
    trace w' = trace w ++ [EvCreate p; EvChmod p mode_0o755].
Proof.
  unfold materialize. intros H.
  apply bind_Ok in H as (p1 & w1 & Hopen & H).
  apply bind_Ok in H as (u2 & w2 & Hwrite & H).
  apply bind_Ok in H as (u3 & w3 & Hchmod & H).
  apply ret_Ok in H as [-> ->].
  apply NamedTemporaryFile_Ok in Hopen as (-> & Hfresh & ->).
  apply write_close_Ok in Hwrite as (data & Henc & ->).
  apply os_chmod_Ok in Hchmod as (f & Hf & ->). simpl in *.
  rewrite lookup_alter_eq, lookup_insert_eq in Hf. simpl in Hf.
  injection Hf as <-. simpl.
  exists data. repeat split; try assumption.
  - rewrite alter_insert_eq, insert_insert_eq. reflexivity.
  - rewrite <- app_assoc. reflexivity.
Qed.

End Inversion.

Lemma materialize_succeeds (o : oracle) (script_text : pystr) (w : world)
    (data : bytes) :
  tmp_fault o = None ->
  fs w !! tmp_name o = None ->
  utf8_encode script_text = Some data ->
  write_fault o = None ->
  chmod_fault o = None ->
  exists w', materialize o script_text w = (Ok (tmp_name o), w').
Proof.
  intros Ht Hfresh Henc Hw Hc.
  unfold materialize, bind, NamedTemporaryFile, write_close, os_chmod, ret.
  rewrite Ht, Hfresh, Henc, Hw, Hc. simpl.
  rewrite lookup_alter_eq, lookup_insert_eq. simpl. eauto.
Qed.

(** C6: when [materialize] hands back a path, reading that file gives
    back exactly the script text, and its mode is rwxr-xr-x (0o755), so
    the owner's execute bit is set. It does hand back a path whenever the
    host reports no fault and the text can be encoded. *)
Theorem materialize_round_trip (o : oracle) (script_text : pystr)
    (w : world) :
  (forall p w',
      materialize o script_text w = (Ok p, w') ->
      read_text w' p = Some script_text /\
      (exists f, fs w' !! p = Some f /\ f_mode f = mode_0o755) /\
      perm_digits mode_0o755 = (7, 5, 5) /\
      N.testbit mode_0o755 6 = true) /\
  (forall data,
      tmp_fault o = None ->
      fs w !! tmp_name o = None ->
      utf8_encode script_text = Some data ->
      write_fault o = None ->
      chmod_fault o = None ->
      exists w', materialize o script_text w = (Ok (tmp_name o), w')).
Proof.
  split.
  - intros p w' H.
    apply materialize_Ok in H as (data & -> & _ & Henc & Hfs & _).
    unfold read_text. rewrite Hfs, lookup_insert_eq. simpl.
    repeat split.
    + apply utf8_decode_encode. exact Henc.
    + eexists. split; reflexivity.
  - intros data. apply materialize_succeeds.
Qed.

Lemma materialize_round_trip_witness :
  exists w',
    materialize (quiet_oracle [] 0) (lit "echo " ++ CHECK_MARK) empty_world
    = (Ok (lit "/tmp/tmpk3x9q2ab.sh"), w') /\
    read_text w' (lit "/tmp/tmpk3x9q2ab.sh")
    = Some (lit "echo " ++ CHECK_MARK).
Proof.
  pose (T := materialize_round_trip (quiet_oracle [] 0)
               (lit "echo " ++ CHECK_MARK) empty_world).
  destruct (proj2 T [x65; x63; x68; x6f; x20; xe2; x9c; x85])
    as [w' Hw'].
  - reflexivity.
  - vm_compute. reflexivity.
  - vm_compute. reflexivity.
  - reflexivity.
  - reflexivity.
  - exists w'. split.
    + exact Hw'.
    + apply (proj1 T _ _ Hw').
Defined.

(** ** What a normal return of the [try] body means *)

Lemma remove_count_app (p : pystr) (t1 t2 : list event) :
  remove_count p (t1 ++ t2)
  = (remove_count p t1 + remove_count p t2)%nat.
Proof. unfold remove_count. rewrite filter_app, length_app. reflexivity. Qed.

Lemma remove_count_one (p : pystr) (e : event) :
  remove_count p [e] = if is_remove_of p e then 1%nat else 0%nat.
Proof.
  unfold remove_count. rewrite filter_cons, filter_nil.
  destruct (is_remove_of p e); reflexivity.
Qed.

Lemma remove_count_info (p : pystr) (ctx : option Context) (msg : pystr) :
  remove_count p match ctx with
                 | Some _ => [EvInfo msg]
                 | None => []
                 end = 0%nat.
Proof. destruct ctx; reflexivity. Qed.

(** When the body of the [try] returns normally, both streams were valid
    UTF-8, the report carries the stripped text of the stream that goes
    with the exit code, [os.remove] was called once on the temporary file
    and the file is gone. *)
Lemma run_install_script_try_Ok {R : Runtime} (o : oracle)
    (script_text : pystr) (ctx : option Context) (w : world)
    (report : pystr) (w' : world) :
  run_install_script_try o script_text ctx w = (Ok report, w') ->
  exists proc output error,
    comm_result o = inr proc /\
    utf8_decode (c_stdout proc) = Some output /\
    utf8_decode (c_stderr proc) = Some error /\
    report = (if (c_returncode proc =? 0)%Z
              then succeeded_report (strip output)
              else failed_report (c_returncode proc) (strip error)) /\
    fs w' !! tmp_name o = None /\
    remove_count (tmp_name o) (trace w')
    = (remove_count (tmp_name o) (trace w) + 1)%nat /\
    spawn_count (trace w') = (spawn_count (trace w) + 1)%nat.
Proof.
  unfold run_install_script_try. intros H.
  apply bind_Ok in H as (p & w1 & Hmat & H).
  apply bind_Ok in H as (u2 & w2 & Hinfo & H).
  apply bind_Ok in H as (u3 & w3 & Hspawn & H).
  apply bind_Ok in H as (proc & w4 & Hcomm & H).
  apply bind_Ok in H as (output & w5 & Hout & H).
  apply bind_Ok in H as (error & w6 & Herr & H).
  apply bind_Ok in H as (u7 & w7 & Hrm & H).
  assert (Hres : report = (if (c_returncode proc =? 0)%Z
                           then succeeded_report (strip output)
                           else failed_report (c_returncode proc)
                                  (strip error)) /\ w' = w7).
  { destruct (c_returncode proc =? 0)%Z;
      apply ret_Ok in H as [-> ->]; auto. }
  destruct Hres as [-> ->]. clear H.
  apply materialize_Ok in Hmat as (data & -> & _ & _ & _ & Ht1).
  apply info_Ok in Hinfo as [_ Ht2].
  apply create_subprocess_exec_Ok in Hspawn as [_ ->].
  apply communicate_Ok in Hcomm as [Hproc ->].
  apply decode_Ok in Hout as [Hout ->].
  apply decode_Ok in Herr as [Herr ->].
  apply os_remove_Ok in Hrm as ->.
  exists proc, output, error. simpl.
  repeat split; try assumption.
  - apply lookup_delete_eq.
  - rewrite Ht2, Ht1.
    rewrite !remove_count_app, remove_count_info, !remove_count_one.
    simpl. rewrite bool_decide_eq_true_2 by reflexivity.
    change ([EvCreate (tmp_name o); EvChmod (tmp_name o) mode_0o755])
      with ([EvCreate (tmp_name o)] ++ [EvChmod (tmp_name o) mode_0o755]).
    rewrite remove_count_app, !remove_count_one. simpl. lia.
  - rewrite Ht2, Ht1.
    rewrite !spawn_count_app, !spawn_count_one.
    change ([EvCreate (tmp_name o); EvChmod (tmp_name o) mode_0o755])
      with ([EvCreate (tmp_name o)] ++ [EvChmod (tmp_name o) mode_0o755]).
    rewrite spawn_count_app, !spawn_count_one. simpl.
    destruct ctx; simpl; rewrite ?spawn_count_one; simpl;
      try (unfold spawn_count; simpl); lia.
Qed.

(** ** Trimming *)






(** ** Decoding the output of the child *)

Lemma run_install_script_catches {R : Runtime} (o : oracle)
    (script_text : pystr) (ctx : option Context) (w : world) (e : exn)
    (w' : world) :
  run_install_script o script_text ctx w = (Raise e, w') ->
  is_Exception e = false.
Proof.
  unfold run_install_script, bind, try_except.
  destruct (info ctx _ w) as [[u | e0] w0] eqn:Hinfo.
  - destruct (run_install_script_try o script_text ctx w0)
      as [[r | e1] w1]; [discriminate |].
    destruct (is_Exception e1) eqn:He1; [discriminate |].
    intros [= <- _]. exact He1.
  - destruct ctx; discriminate.
Qed.


(** ** Cleaning up the temporary file *)

(** Whenever the spawn raises after the script was materialized, the
    [try] body ends there: [os.remove] is not reached and the file
    stays. *)
Lemma spawn_failure_skips_remove {R : Runtime} (o : oracle)
    (script_text : pystr) (ctx : option Context) (w : world) (p : pystr)
    (w1 : world) (e : exn) :
  materialize o script_text w = (Ok p, w1) ->
  spawn_fault o = Some e ->
  exists w',
    run_install_script_try o script_text ctx w = (Raise e, w') /\
    fs w' = fs w1 /\
    is_Some (fs w' !! p) /\
    remove_count p (trace w') = remove_count p (trace w).
Proof.
  intros Hmat Hspawn.
  unfold run_install_script_try, bind at 1. rewrite Hmat.
  apply materialize_Ok in Hmat as (data & -> & _ & _ & Hfs & Ht).
  unfold create_subprocess_exec, bind. rewrite Hspawn.
  destruct ctx; simpl; eexists; (split; [reflexivity |]); simpl;
    (split; [reflexivity |]); rewrite Hfs, lookup_insert_eq, Ht;
    (split; [eauto |]);
    change ([EvCreate (tmp_name o); EvChmod (tmp_name o) mode_0o755])
      with ([EvCreate (tmp_name o)] ++ [EvChmod (tmp_name o) mode_0o755]);
    rewrite !remove_count_app, !remove_count_one; simpl; lia.
Qed.

(** C1 at its failing inputs. A script that prints the byte 0xFF and
    exits with 0: decoding raises before [os.remove], the handler
    returns, and the file is still there with the script in it. The same
    on a host without bash, where the spawn raises. Only a run whose
    streams decode removes the file, once. *)
Theorem temp_file_left_behind_on_exception :
  let script := lit "printf '\377'" in
  let p := lit "/tmp/tmpk3x9q2ab.sh" in
  let run o := @run_install_script caseless_runtime o script None
                 empty_world in
  (fst (run (quiet_oracle [xff] 0))
   = Ok (@error_report caseless_runtime (UnicodeDecodeError [xff])) /\
   read_text (snd (run (quiet_oracle [xff] 0))) p = Some script /\
   remove_count p (trace (snd (run (quiet_oracle [xff] 0)))) = 0%nat) /\
  (fst (run no_bash_oracle)
   = Ok (CROSS_MARK ++ lit " Error during installation: "
           ++ lit "[Errno 2] No such file or directory: 'bash'") /\
   read_text (snd (run no_bash_oracle)) p = Some script /\
   remove_count p (trace (snd (run no_bash_oracle))) = 0%nat) /\
  (fst (run (quiet_oracle [x6f; x6b; x0a] 0))
   = Ok (succeeded_report (lit "ok")) /\
   fs (snd (run (quiet_oracle [x6f; x6b; x0a] 0))) !! p = None /\
   remove_count p (trace (snd (run (quiet_oracle [x6f; x6b; x0a] 0))))
   = 1%nat).
Proof. vm_compute. repeat split. Qed.

(** ** The summary of a handler report *)

Lemma error_report_any_case {R : Runtime} (e : exn) :
  occurs_any_case (lit "error") (error_report e).
Proof.
  exists (CROSS_MARK ++ lit " "), (lit "Error"),
         (lit " during installation: " ++ str_exn e).
  split; [reflexivity |]. split; [| reflexivity].
  repeat constructor.
Qed.

Lemma summarize_error_report {R : Runtime} (e : exn) :
  summarize_result (error_report e) = errors_summary.
Proof.
  pose proof (lower_any_case _ _ (error_report_any_case e)) as H.
  apply contains_spec in H. unfold summarize_result. rewrite H.
  reflexivity.
Qed.

(** C10: the classifier reads the formatted report. When the body of
    [run_install_script] raises and its handler builds the report, that
    report is the cross mark, " Error during installation: " and the
    text of the exception, and what [install_from_llm_script] returns is
    the heading "=== Installation Result ===", that report, an empty
    line, the heading "=== Summary ===" and, as the summary section, the
    message for errors. *)
Theorem handler_report_summarized_as_error {R : Runtime} (o : oracle)
    (script_text : pystr) (ctx : option Context) (w : world)
    (validation : pystr) (w1 : world) (e : exn) (w2 : world) :
  validate_script script_text ctx w = (Ok validation, w1) ->
  contains CROSS_MARK validation = false ->
  run_install_script_try o script_text ctx
    (snd (info ctx (lit "Writing install script to temporary file...") w1))
  = (Raise e, w2) ->
  is_Exception e = true ->
  let report := [0x274C] ++ lit " Error during installation: " ++ str_exn e in
  let summary :=
    [0x26A0; 0xFE0F]
      ++ lit " Some errors were detected during installation." in
  startswith (CROSS_MARK ++ lit " Error during installation") report = true /\
  run_install_script o script_text ctx w1 = (Ok report, w2) /\
  summarize_result report = summary /\
  install_from_llm_script o script_text ctx w
  = (Ok (lit "=== Installation Result ===" ++ [10] ++ report ++ [10]
           ++ [10] ++ lit "=== Summary ===" ++ [10] ++ summary), w2) /\
  install_from_llm_script o script_text ctx w
  = (Ok (installation_report (error_report e) errors_summary), w2).
Proof.
  intros Hv Hgate Hraise He. cbv zeta.
  assert (Hrun : run_install_script o script_text ctx w1
                 = (Ok (error_report e), w2)).
  { unfold run_install_script, bind, try_except.
    destruct ctx; simpl in *; rewrite Hraise, He; reflexivity. }
  assert (Hinst : install_from_llm_script o script_text ctx w
                  = (Ok (installation_report (error_report e)
                           errors_summary), w2)).
  { unfold install_from_llm_script, bind.
    rewrite Hv, Hgate, Hrun. unfold ret.
    rewrite summarize_error_report. reflexivity. }
  split; [reflexivity |]. split; [exact Hrun |].
  split; [apply summarize_error_report |].
  split; [| exact Hinst].
  rewrite Hinst. reflexivity.
Qed.

Lemma handler_report_summarized_as_error_witness :
  exists w2,
    @install_from_llm_script caseless_runtime (quiet_oracle [xff] 0)
      (lit "printf '\377'") None empty_world
    = (Ok (lit "=== Installation Result ===" ++ [10]
             ++ ([0x274C] ++ lit " Error during installation: "
                   ++ @str_exn caseless_runtime (UnicodeDecodeError [xff]))
             ++ [10] ++ [10] ++ lit "=== Summary ===" ++ [10]
             ++ [0x26A0; 0xFE0F]
             ++ lit " Some errors were detected during installation."), w2).
Proof.
  eexists.
  apply (@handler_report_summarized_as_error caseless_runtime
           (quiet_oracle [xff] 0) (lit "printf '\377'") None empty_world
           passed_report empty_world (UnicodeDecodeError [xff])).
  - vm_compute. reflexivity.
  - vm_compute. reflexivity.
  - vm_compute. reflexivity.
  - reflexivity.
Defined.

(** ** The compatibility report *)

Lemma check_compatibility_versions_agree {R : Runtime} (h : host)
    (component : pystr) (system : option pystr) (ctx : option Context) :
  tools_system.check_compatibility h component system ctx
  = check_compatibility h component system ctx.
Proof. reflexivity. Qed.

Lemma join_first_line (first : pystr) (second : pystr)
    (others : list pystr) :
  join NL (first :: second :: others)
  = first ++ NL ++ join NL (second :: others).
Proof. reflexivity. Qed.

Lemma check_compatibility_report {R : Runtime} (h : host)
    (component system : pystr) (ctx : option Context) (w : world) :
  system <> [] ->
  exists tail,
    fst (check_compatibility h component (Some system) ctx w)
    = Ok (verdict_line component system ++ NL
            ++ join NL ([[]; lit "System detected:"; lit "- OS: " ++ system;
                         lit "- Release: " ++ platform_release h;
                         lit "- Version: " ++ platform_version h] ++ tail))
    /\
    tail = (if bool_decide (system = lit "MacOS")
               && startswith (lit "10.") (platform_release h)
            then [macos_note] else []).
Proof.
  intros Hsys. destruct system as [|c system]; [contradiction |].
  eexists. split; [| reflexivity].
  unfold check_compatibility, verdict_line,
    tools_system.COMPATIBILITY_MATRIX.
  cbn [truthy default from_option id].
  destruct (bool_decide (c :: system = lit "MacOS")
            && startswith (lit "10.") (platform_release h));
    destruct ctx; reflexivity.
Qed.

(** C8, as the code has it: the report of [check_compatibility] for a
    given component and a supplied, non-empty system starts with a
    verdict line that depends on those two and on the static table only,
    and goes on with the release and version of the host it runs on. Two
    invocations return the same report when the hosts agree on release
    and version, whatever else differs. Both copies of the function
    behave alike. *)
Theorem check_compatibility_depends_on_host_release {R : Runtime}
    (component system : pystr) (ctx : option Context) :
  system <> [] ->
  (forall h1 h2 w1 w2,
      platform_release h1 = platform_release h2 ->
      platform_version h1 = platform_version h2 ->
      fst (check_compatibility h1 component (Some system) ctx w1)
      = fst (check_compatibility h2 component (Some system) ctx w2)) /\
  (forall h w,
      exists rest,
        fst (check_compatibility h component (Some system) ctx w)
        = Ok (verdict_line component system ++ NL ++ rest)) /\
  (forall h w,
      tools_system.check_compatibility h component (Some system) ctx w
      = check_compatibility h component (Some system) ctx w).
Proof.
  intros Hsys. split; [| split].
  - intros h1 h2 w1 w2 Hrel Hver.
    destruct (check_compatibility_report h1 component system ctx w1 Hsys)
      as [t1 [-> ->]].
    destruct (check_compatibility_report h2 component system ctx w2 Hsys)
      as [t2 [-> ->]].
    rewrite Hrel, Hver. reflexivity.
  - intros h w.
    destruct (check_compatibility_report h component system ctx w Hsys)
      as [t [-> _]].
    eauto.
  - intros h w. rewrite check_compatibility_versions_agree. reflexivity.
Qed.

Lemma check_compatibility_depends_on_host_release_witness :
  exists rest,
    fst (@check_compatibility caseless_runtime ubuntu_22 (lit "Docker")
           (Some (lit "Ubuntu")) None empty_world)
    = Ok (lit "Docker is compatible with Ubuntu." ++ NL ++ rest).
Proof.
  apply (proj1 (proj2 (@check_compatibility_depends_on_host_release
                         caseless_runtime (lit "Docker") (lit "Ubuntu")
                         None ltac:(discriminate)))
           ubuntu_22 empty_world).
Defined.

(** C8 as stated fails: with the same component and the same supplied
    system, two hosts that differ in their kernel release get different
    reports. *)
Lemma check_compatibility_differs_across_hosts :
  fst (@check_compatibility caseless_runtime ubuntu_22 (lit "docker")
         (Some (lit "Ubuntu")) None empty_world)
  <> fst (@check_compatibility caseless_runtime ubuntu_24 (lit "docker")
            (Some (lit "Ubuntu")) None empty_world) /\
  fst (@tools_system.check_compatibility caseless_runtime ubuntu_22
         (lit "docker") (Some (lit "Ubuntu")) None empty_world)
  <> fst (@tools_system.check_compatibility caseless_runtime ubuntu_24
            (lit "docker") (Some (lit "Ubuntu")) None empty_world) /\
  ~ (forall (h1 h2 : host) (component system : pystr) (w : world),
        fst (@check_compatibility caseless_runtime h1 component
               (Some system) None w)
        = fst (@check_compatibility caseless_runtime h2 component
                 (Some system) None w)).
Proof.
  assert (D : fst (@check_compatibility caseless_runtime ubuntu_22
                     (lit "docker") (Some (lit "Ubuntu")) None empty_world)
              <> fst (@check_compatibility caseless_runtime ubuntu_24
                        (lit "docker") (Some (lit "Ubuntu")) None
                        empty_world)).
  { vm_compute. intros [=]. }
  split; [exact D |]. split; [exact D |].
  intros H. apply D, H.
Qed.

(** * Further properties *)

(** ** Substrings across a separator *)

Lemma startswith_app_sep (kw x s2 : pystr) (sep : N) :
  ~ In sep kw ->
  startswith kw (x ++ sep :: s2) = startswith kw x.
Proof.
  revert x. induction kw as [|k kw IH]; intros x Hsep; [reflexivity |].
  destruct x as [|c x]; simpl.
  - destruct (N.eqb_spec k sep) as [-> |]; [| reflexivity].
    exfalso. apply Hsep. left. reflexivity.
  - rewrite IH; [reflexivity |]. intros Hin. apply Hsep. right. exact Hin.
Qed.

Lemma contains_app_sep (kw s1 s2 : pystr) (sep : N) :
  ~ In sep kw ->
  contains kw (s1 ++ sep :: s2) = contains kw s1 || contains kw s2.
Proof.
  intros Hsep. induction s1 as [|c s1 IH].
  - change ([] ++ sep :: s2) with ([] ++ sep :: s2).
    cbn [app contains].
    rewrite (startswith_app_sep kw [] s2 sep Hsep : startswith kw (sep :: s2) = _).
    rewrite orb_false_r.
    destruct (startswith kw []) eqn:E; [| reflexivity].
    destruct kw; [| discriminate]. destruct s2; reflexivity.
  - cbn [app contains].
    rewrite (startswith_app_sep kw (c :: s1) s2 sep Hsep
             : startswith kw (c :: s1 ++ sep :: s2) = _).
    rewrite IH, orb_assoc. reflexivity.
Qed.

Lemma occurs_trans (a b c : pystr) : occurs a b -> occurs b c -> occurs a c.
Proof.
  intros [p1 [q1 ->]] [p2 [q2 ->]].
  exists (p2 ++ p1), (q1 ++ q2). rewrite <- !app_assoc. reflexivity.
Qed.

Lemma occurs_app_r (kw s post : pystr) : occurs kw s -> occurs kw (s ++ post).
Proof.
  intros [p [q ->]]. exists p, (q ++ post). rewrite <- !app_assoc. reflexivity.
Qed.

Lemma occurs_suffix (kw pre s : pystr) : occurs kw s -> occurs kw (pre ++ s).
Proof.
  intros [p [q ->]]. exists (pre ++ p), q. rewrite <- app_assoc. reflexivity.
Qed.

(** ** The validator on composed scripts *)

Lemma rejects_iff (s : pystr) :
  rejects s <-> exists bad, In bad blacklist /\ occurs bad s.
Proof.
  split.
  - intros [bad [Hin H]].
    specialize (H None empty_world). unfold validate_script in H.
    destruct (first_unsafe blacklist s) as [bad'|] eqn:E.
    + exists bad'. apply first_unsafe_In. exact E.
    + exfalso. unfold bind, info, ret in H. discriminate H.
  - intros [bad [Hin Hocc]].
    destruct (first_unsafe_hit blacklist s bad Hin Hocc) as [bad' E].
    exists bad'. split; [apply (first_unsafe_In _ _ _ E) |].
    intros ctx w. apply validate_script_rejects. exact E.
Qed.

Lemma accepts_iff (s : pystr) :
  accepts s <-> forall bad, In bad blacklist -> ~ occurs bad s.
Proof.
  rewrite <- first_unsafe_None. split.
  - intros H. specialize (H None empty_world). unfold validate_script in H.
    destruct (first_unsafe blacklist s); [| reflexivity].
    exfalso. unfold ret in H. cbn [fst] in H. discriminate H.
  - intros E ctx w. rewrite validate_script_accepts by exact E. reflexivity.
Qed.

Lemma accepts_or_rejects (s : pystr) : accepts s \/ rejects s.
Proof.
  destruct (first_unsafe blacklist s) as [bad|] eqn:E.
  - right. apply rejects_iff. exists bad. apply first_unsafe_In. exact E.
  - left. apply accepts_iff, first_unsafe_None. exact E.
Qed.

Lemma accepts_not_rejects (s : pystr) : accepts s -> ~ rejects s.
Proof.
  rewrite accepts_iff, rejects_iff. intros Ha [bad [Hin Hocc]].
  exact (Ha bad Hin Hocc).
Qed.

(** A script that embeds a rejected script is rejected, whatever is put
    before and after it; so every fragment of an accepted script is
    accepted. *)
Theorem rejection_survives_embedding (inner outer : pystr) :
  occurs inner outer ->
  (rejects inner -> rejects outer) /\ (accepts outer -> accepts inner).
Proof.
  intros Hocc. split.
  - rewrite !rejects_iff. intros [bad [Hin Hbad]].
    exists bad. split; [exact Hin |]. eapply occurs_trans; eauto.
  - rewrite !accepts_iff. intros H bad Hin Hbad.
    apply (H bad Hin). eapply occurs_trans; eauto.
Qed.

Lemma rejection_survives_embedding_witness :
  rejects (lit "echo hi" ++ NL ++ lit "sudo shutdown -h now" ++ NL).
Proof.
  apply (proj1 (rejection_survives_embedding (lit "shutdown")
                  (lit "echo hi" ++ NL ++ lit "sudo shutdown -h now" ++ NL)
                  ltac:(exists (lit "echo hi" ++ NL ++ lit "sudo "),
                                (lit " -h now" ++ NL); reflexivity))).
  apply rejects_iff. exists (lit "shutdown"). split.
  - vm_compute. tauto.
  - exists [], []. reflexivity.
Defined.

(** Two scripts joined by a character that is in no denylist entry (a
    line break, for one) are accepted exactly when both are: no entry can
    match across the joint. *)
Theorem accepts_joined_scripts (s1 s2 : pystr) (sep : N) :
  (forall bad, In bad blacklist -> ~ In sep bad) ->
  (accepts (s1 ++ sep :: s2) <-> accepts s1 /\ accepts s2).
Proof.
  intros Hsep. rewrite !accepts_iff. split.
  - intros H. split; intros bad Hin Hocc; apply (H bad Hin);
      apply contains_spec; rewrite (contains_app_sep _ _ _ _ (Hsep bad Hin));
      apply contains_spec in Hocc; rewrite Hocc;
      [reflexivity | apply orb_true_r].
  - intros [H1 H2] bad Hin Hocc.
    apply contains_spec in Hocc.
    rewrite (contains_app_sep _ _ _ _ (Hsep bad Hin)) in Hocc.
    apply orb_true_iff in Hocc as [Hocc | Hocc];
      apply contains_spec in Hocc;
      [exact (H1 bad Hin Hocc) | exact (H2 bad Hin Hocc)].
Qed.

Lemma newline_in_no_denylist_entry :
  forall bad, In bad blacklist -> ~ In 10 bad.
Proof.
  intros bad Hin.
  assert (H : forallb (fun b => negb (existsb (N.eqb 10) b)) blacklist
              = true) by (vm_compute; reflexivity).
  rewrite forallb_forall in H. specialize (H bad Hin).
  apply negb_true_iff in H. intros Hc.
  assert (existsb (N.eqb 10) bad = true); [| congruence].
  apply existsb_exists. exists 10. split; [exact Hc | apply N.eqb_refl].
Qed.

Lemma accepts_joined_scripts_witness :
  accepts (lit "apt-get update" ++ NL ++ lit "apt-get install -y nginx").
Proof.
  apply (proj2 (accepts_joined_scripts (lit "apt-get update")
                  (lit "apt-get install -y nginx") 10
                  newline_in_no_denylist_entry)).
  split; apply accepts_iff, first_unsafe_None; vm_compute; reflexivity.
Defined.

(** ** What the pipeline touches *)

Section Tidy.
Context {R : Runtime}.
Variable o : oracle.

Lemma own_effects_refl (w : world) : own_effects o w w.
Proof.
  split; [| reflexivity]. exists []. rewrite app_nil_r. auto.
Qed.

Lemma own_effects_trans (w1 w2 w3 : world) :
  own_effects o w1 w2 -> own_effects o w2 w3 -> own_effects o w1 w3.
Proof.
  intros [[t1 [Ht1 Hf1]] Hfs1] [[t2 [Ht2 Hf2]] Hfs2]. split.
  - exists (t1 ++ t2). rewrite Ht2, Ht1, <- app_assoc. split; [reflexivity |].
    apply Forall_app. auto.
  - intros p Hp Hk. rewrite Hfs2, Hfs1 by assumption. reflexivity.
Qed.

Lemma own_effects_event (w : world) (e : event) :
  own_event o e ->
  own_effects o w {| fs := fs w; trace := trace w ++ [e] |}.
Proof. intros He. split; [| reflexivity]. exists [e]. simpl. auto. Qed.

Lemma tidy_ret {A} (a : A) : tidy o (ret a).
Proof. intros w. apply own_effects_refl. Qed.

Lemma tidy_raise {A} (e : exn) : tidy o (@raise A e).
Proof. intros w. apply own_effects_refl. Qed.

Lemma tidy_bind {A B} (c : M A) (k : A -> M B) :
  tidy o c ->
  (forall w a w1, c w = (Ok a, w1) -> tidy o (k a)) ->
  tidy o (bind c k).
Proof.
  intros Hc Hk w. unfold bind. specialize (Hc w).
  destruct (c w) as [[a | e] w1] eqn:E; simpl in *.
  - eapply own_effects_trans; [exact Hc | apply (Hk w a w1 E)].
  - exact Hc.
Qed.

Lemma tidy_try_except {A} (c : M A) (h : exn -> M A) :
  tidy o c -> (forall e, tidy o (h e)) -> tidy o (try_except c h).
Proof.
  intros Hc Hh w. unfold try_except. specialize (Hc w).
  destruct (c w) as [[a | e] w1]; simpl in *; [exact Hc |].
  destruct (is_Exception e); simpl; [| exact Hc].
  eapply own_effects_trans; [exact Hc | apply Hh].
Qed.

Lemma tidy_log (e : event) : own_event o e -> tidy o (log e).
Proof. intros He w. apply own_effects_event. exact He. Qed.

Lemma tidy_info (ctx : option Context) (msg : pystr) :
  tidy o (info ctx msg).
Proof. destruct ctx; [apply tidy_log; exact I | apply tidy_ret]. Qed.

Lemma tidy_NamedTemporaryFile : tidy o (NamedTemporaryFile o).
Proof.
  intros w. unfold NamedTemporaryFile.
  destruct (tmp_fault o); [apply own_effects_refl |].
  destruct (fs w !! tmp_name o); [apply own_effects_refl |].
  split; simpl.
  - exists [EvCreate (tmp_name o)]. split; [reflexivity |].
    repeat constructor.
  - intros p Hp _. apply lookup_insert_ne. congruence.
Qed.

Lemma tidy_write_close (text : pystr) :
  tidy o (write_close o (tmp_name o) text).
Proof.
  intros w. unfold write_close.
  destruct (utf8_encode text); [| apply own_effects_refl].
  destruct (write_fault o); [apply own_effects_refl |].
  split; simpl.
  - exists []. rewrite app_nil_r. auto.
  - intros p Hp _. apply lookup_alter_ne. congruence.
Qed.

Lemma tidy_os_chmod : tidy o (os_chmod o (tmp_name o) mode_0o755).
Proof.
  intros w. unfold os_chmod.
  destruct (chmod_fault o); [apply own_effects_refl |].
  destruct (fs w !! tmp_name o); [| apply own_effects_refl].
  split; simpl.
  - exists [EvChmod (tmp_name o) mode_0o755]. split; [reflexivity |].
    repeat constructor.
  - intros p Hp _. apply lookup_insert_ne. congruence.
Qed.

Lemma tidy_create_subprocess_exec :
  tidy o (create_subprocess_exec o [lit "bash"; tmp_name o]).
Proof.
  unfold create_subprocess_exec. apply tidy_bind.
  - apply tidy_log. reflexivity.
  - intros _ _ _ _.
    destruct (spawn_fault o); [apply tidy_raise | apply tidy_ret].
Qed.

Lemma tidy_communicate : tidy o (communicate o).
Proof.
  intros w. unfold communicate.
  assert (H : own_effects o w
                {| fs := child_fs o (fs w); trace := trace w |}).
  { split; simpl.
    - exists []. rewrite app_nil_r. auto.
    - intros p _ Hk. apply Hk. }
  destruct (comm_result o); exact H.
Qed.

Lemma tidy_decode (b : bytes) : tidy o (decode b).
Proof.
  unfold decode. destruct (utf8_decode b); [apply tidy_ret | apply tidy_raise].
Qed.

Lemma tidy_os_remove : tidy o (os_remove o (tmp_name o)).
Proof.
  unfold os_remove. apply tidy_bind.
  - apply tidy_log. reflexivity.
  - intros _ _ _ _ w.
    destruct (remove_fault o); [apply own_effects_refl |].
    destruct (fs w !! tmp_name o); [| apply own_effects_refl].
    split; simpl.
    + exists []. rewrite app_nil_r. auto.
    + intros p Hp _. apply lookup_delete_ne. congruence.
Qed.

Lemma tidy_materialize (script_text : pystr) :
  tidy o (materialize o script_text).
Proof.
  unfold materialize.
  apply tidy_bind; [apply tidy_NamedTemporaryFile |].
  intros w p w1 Hopen. apply NamedTemporaryFile_Ok in Hopen as (-> & _).
  apply tidy_bind; [apply tidy_write_close | intros _ _ _ _].
  apply tidy_bind; [apply tidy_os_chmod | intros _ _ _ _].
  apply tidy_ret.
Qed.

Lemma tidy_run_install_script_try (script_text : pystr)
    (ctx : option Context) :
  tidy o (run_install_script_try o script_text ctx).
Proof.
  unfold run_install_script_try.
  apply tidy_bind; [apply tidy_materialize |].
  intros w p w1 Hmat. apply materialize_Ok in Hmat as (data & -> & _).
  apply tidy_bind; [apply tidy_info | intros _ _ _ _].
  apply tidy_bind; [apply tidy_create_subprocess_exec | intros _ _ _ _].
  apply tidy_bind; [apply tidy_communicate | intros _ proc _ _].
  apply tidy_bind; [apply tidy_decode | intros _ output _ _].
  apply tidy_bind; [apply tidy_decode | intros _ error _ _].
  apply tidy_bind; [apply tidy_os_remove | intros _ _ _ _].
  destruct (c_returncode proc =? 0)%Z; apply tidy_ret.
Qed.

Lemma tidy_run_install_script (script_text : pystr)
    (ctx : option Context) :
  tidy o (run_install_script o script_text ctx).
Proof.
  unfold run_install_script.
  apply tidy_bind; [apply tidy_info | intros _ _ _ _].
  apply tidy_try_except; [apply tidy_run_install_script_try |].
  intros e. apply tidy_ret.
Qed.

Lemma tidy_validate_script (script_text : pystr) (ctx : option Context) :
  tidy o (validate_script script_text ctx).
Proof.
  unfold validate_script.
  destruct (first_unsafe blacklist script_text); [apply tidy_ret |].
  apply tidy_bind; [apply tidy_info | intros _ _ _ _; apply tidy_ret].
Qed.

Lemma tidy_install_from_llm_script (script_text : pystr)
    (ctx : option Context) :
  tidy o (install_from_llm_script o script_text ctx).
Proof.
  unfold install_from_llm_script.
  apply tidy_bind; [apply tidy_validate_script | intros _ v _ _].
  destruct (contains CROSS_MARK v); [apply tidy_ret |].
  apply tidy_bind; [apply tidy_run_install_script | intros _ r _ _].
  apply tidy_ret.
Qed.

End Tidy.


(** A file other than the temporary one, which the script itself leaves
    alone, is the same after [install_from_llm_script] as before, on
    every path: the tool writes and deletes nothing else. *)
Theorem other_files_untouched {R : Runtime} (o : oracle)
    (script_text : pystr) (ctx : option Context) (w : world) (p : pystr) :
  p <> tmp_name o ->
  child_keeps o p ->
  fs (snd (install_from_llm_script o script_text ctx w)) !! p = fs w !! p /\
  fs (snd (run_install_script o script_text ctx w)) !! p = fs w !! p.
Proof.
  intros Hp Hk. split.
  - apply (tidy_install_from_llm_script o script_text ctx w); assumption.
  - apply (tidy_run_install_script o script_text ctx w); assumption.
Qed.

Lemma other_files_untouched_witness :
  let w := {| fs := {[ lit "/etc/hosts" := File [x31] mode_0o600 ]};
              trace := [] |} in
  fs (snd (@install_from_llm_script caseless_runtime (quiet_oracle [] 3)
             (lit "exit 3") None w)) !! lit "/etc/hosts"
  = Some (File [x31] mode_0o600).
Proof.
  intros w.
  rewrite (proj1 (@other_files_untouched caseless_runtime
                    (quiet_oracle [] 3) (lit "exit 3") None w
                    (lit "/etc/hosts")
                    ltac:(vm_compute; discriminate)
                    ltac:(intros m; reflexivity))).
  vm_compute. reflexivity.
Defined.

(** ** Runs on a host without faults *)

(** Up to [os.remove]: on a faultless host, with a free temporary name,
    an encodable script and decodable streams, the body of the [try]
    gets as far as the removal, with the script on disk as the child
    left it. *)
Lemma run_install_script_try_to_remove (o : oracle)
    (script_text : pystr) (ctx : option Context) (w : world)
    (proc : completed) (data : bytes) (output error : pystr) :
  faultless o proc ->
  fs w !! tmp_name o = None ->
  utf8_encode script_text = Some data ->
  utf8_decode (c_stdout proc) = Some output ->
  utf8_decode (c_stderr proc) = Some error ->
  exists w3,
    fs w3 = child_fs o (<[tmp_name o := File data mode_0o755]> (fs w)) /\
    run_install_script_try o script_text ctx w
    = bind (os_remove o (tmp_name o))
           (fun _ => ret (completed_report (c_returncode proc) output error))
           w3.
Proof.
  intros (Ht & Hw & Hc & Hs & _ & Hcomm) Hfresh Henc Hout Herr.
  destruct (materialize_succeeds o script_text w data Ht Hfresh Henc Hw Hc)
    as [w1 Hmat].
  pose proof (materialize_Ok o script_text w _ w1 Hmat)
    as (data' & _ & _ & Henc' & Hfs1 & _).
  assert (data' = data) as -> by congruence.
  unfold run_install_script_try. unfold bind at 1. rewrite Hmat.
  unfold bind at 1.
  destruct (info ctx (lit "Executing install script: " ++ tmp_name o) w1)
    as [[u | e] w2] eqn:Hinfo; [| destruct ctx; discriminate Hinfo].
  apply info_Ok in Hinfo as [Hfs2 _].
  unfold bind at 1, create_subprocess_exec, bind at 1, log.
  rewrite Hs. unfold ret at 1.
  unfold bind at 1, communicate. rewrite Hcomm.
  unfold bind at 1, decode at 1. rewrite Hout. unfold ret at 1.
  unfold bind at 1, decode at 1. rewrite Herr. unfold ret at 1.
  eexists. split; [| unfold completed_report;
                     destruct (c_returncode proc =? 0)%Z; reflexivity].
  simpl. rewrite Hfs2, Hfs1. reflexivity.
Qed.

(** On a faultless host whose child leaves the script file in place, a
    run with decodable streams always completes: the report is the
    success report with the trimmed stdout when the exit code is 0 and
    the failure report with the code and the trimmed stderr otherwise;
    bash was spawned once, the file was removed once and is gone. *)
Theorem faultless_run_completes (o : oracle)
    (script_text : pystr) (ctx : option Context) (w : world)
    (proc : completed) (data : bytes) (output error : pystr) :
  faultless o proc ->
  child_keeps o (tmp_name o) ->
  fs w !! tmp_name o = None ->
  utf8_encode script_text = Some data ->
  utf8_decode (c_stdout proc) = Some output ->
  utf8_decode (c_stderr proc) = Some error ->
  exists w',
    run_install_script_try o script_text ctx w
    = (Ok (completed_report (c_returncode proc) output error), w') /\
    fs w' !! tmp_name o = None /\
    spawn_count (trace w') = (spawn_count (trace w) + 1)%nat /\
    remove_count (tmp_name o) (trace w')
    = (remove_count (tmp_name o) (trace w) + 1)%nat.
Proof.
  intros Hfl Hkeep Hfresh Henc Hout Herr.
  destruct (run_install_script_try_to_remove o script_text ctx w proc data
              output error Hfl Hfresh Henc Hout Herr) as (w3 & Hfs3 & Hrun).
  destruct Hfl as (_ & _ & _ & _ & Hrm & _).
  assert (Hthere : fs w3 !! tmp_name o
                   = Some (File data mode_0o755)).
  { rewrite Hfs3, Hkeep. apply lookup_insert_eq. }
  assert (Hfin : exists w',
             run_install_script_try o script_text ctx w
             = (Ok (completed_report (c_returncode proc) output error), w')).
  { rewrite Hrun. unfold bind, os_remove, bind, log. simpl.
    rewrite Hrm, Hthere. eexists. reflexivity. }
  destruct Hfin as [w' Hw']. exists w'. split; [exact Hw' |].
  apply (@run_install_script_try_Ok caseless_runtime) in Hw'
    as (_ & _ & _ & _ & _ & _ & _ & Hgone & Hrmc & Hspc).
  auto.
Qed.

Lemma faultless_run_completes_witness :
  exists w',
    run_install_script_try (quiet_oracle [] 3) (lit "exit 3") None
      empty_world
    = (Ok (failed_report 3 []), w') /\
    fs w' !! lit "/tmp/tmpk3x9q2ab.sh" = None.
Proof.
  destruct (faultless_run_completes (quiet_oracle [] 3)
              (lit "exit 3") None empty_world
              {| c_stdout := []; c_stderr := []; c_returncode := 3 |}
              [x65; x78; x69; x74; x20; x33] [] [])
    as (w' & Hrun & Hgone & _).
  - repeat split.
  - intros m. reflexivity.
  - vm_compute. reflexivity.
  - vm_compute. reflexivity.
  - reflexivity.
  - reflexivity.
  - exists w'. split; [exact Hrun | exact Hgone].
Defined.

(** A script that deletes its own file (a self-cleaning installer) makes
    [os.remove] raise [FileNotFoundError]: on an otherwise faultless
    host the tool then returns the error report, whatever the exit code
    and the output of the script were. *)
Theorem self_deleting_script_reported_as_error {R : Runtime} (o : oracle)
    (script_text : pystr) (ctx : option Context) (w : world)
    (proc : completed) (data : bytes) (output error : pystr) :
  faultless o proc ->
  (forall m, child_fs o m !! tmp_name o = None) ->
  fs w !! tmp_name o = None ->
  utf8_encode script_text = Some data ->
  utf8_decode (c_stdout proc) = Some output ->
  utf8_decode (c_stderr proc) = Some error ->
  fst (run_install_script o script_text ctx w)
  = Ok (error_report (FileNotFoundError (tmp_name o))).
Proof.
  intros Hfl Hdel Hfresh Henc Hout Herr.
  unfold run_install_script, bind.
  destruct (info ctx (lit "Writing install script to temporary file...") w)
    as [[u | e] w0] eqn:Hinfo; [| destruct ctx; discriminate Hinfo].
  apply info_Ok in Hinfo as [Hfs0 _].
  rewrite <- Hfs0 in Hfresh.
  destruct (run_install_script_try_to_remove o script_text ctx w0 proc data
              output error Hfl Hfresh Henc Hout Herr) as (w3 & Hfs3 & Hrun).
  destruct Hfl as (_ & _ & _ & _ & Hrm & _).
  unfold try_except. rewrite Hrun.
  unfold bind, os_remove, bind, log. simpl.
  rewrite Hrm, Hfs3, Hdel. reflexivity.
Qed.

Lemma self_deleting_script_reported_as_error_witness :
  fst (@run_install_script caseless_runtime self_deleting_oracle
         (lit "rm -- $0") None empty_world)
  = Ok (@error_report caseless_runtime
          (FileNotFoundError (lit "/tmp/tmpk3x9q2ab.sh"))).
Proof.
  apply (@self_deleting_script_reported_as_error caseless_runtime
           self_deleting_oracle (lit "rm -- $0") None empty_world
           {| c_stdout := []; c_stderr := []; c_returncode := 0 |}
           [x72; x6d; x20; x2d; x2d; x20; x24; x30] [] []).
  - repeat split.
  - intros m. apply lookup_delete_eq.
  - vm_compute. reflexivity.
  - vm_compute. reflexivity.
  - reflexivity.
  - reflexivity.
Defined.

(** ** The stream that is not shown *)

(** Only one stream reaches the report. When the child exits with 0,
    what it wrote to stderr plays no part, as long as it decodes: the
    tool returns the same report and leaves the same world. When it exits
    with another code, the same holds for stdout. *)
Theorem only_one_stream_is_reported {R : Runtime} (o : oracle)
    (script_text : pystr) (ctx : option Context) (w : world)
    (proc : completed) (b : bytes) (t t' : pystr) :
  comm_result o = inr proc ->
  utf8_decode b = Some t' ->
  (c_returncode proc = 0%Z ->
   utf8_decode (c_stderr proc) = Some t ->
   run_install_script (with_stderr o b) script_text ctx w
   = run_install_script o script_text ctx w) /\
  (c_returncode proc <> 0%Z ->
   utf8_decode (c_stdout proc) = Some t ->
   run_install_script (with_stdout o b) script_text ctx w
   = run_install_script o script_text ctx w).
Proof.
  intros Hcomm Hb. split; intros Hrc Ht;
    unfold run_install_script, run_install_script_try, bind;
    (destruct (info ctx (lit "Writing install script to temporary file...")
                 w) as [[u0 | e0] w0]; [| reflexivity]);
    unfold try_except.
  - change (materialize (with_stderr o b) script_text)
      with (materialize o script_text).
    destruct (materialize o script_text w0) as [[p | e1] w1];
      [| reflexivity].
    destruct (info ctx (lit "Executing install script: " ++ p) w1)
      as [[u2 | e2] w2]; [| reflexivity].
    change (create_subprocess_exec (with_stderr o b) [lit "bash"; p])
      with (create_subprocess_exec o [lit "bash"; p]).
    destruct (create_subprocess_exec o [lit "bash"; p] w2)
      as [[u3 | e3] w3]; [| reflexivity].
    unfold communicate. cbn [comm_result child_fs with_stderr].
    rewrite Hcomm. cbn [c_stdout c_stderr c_returncode].
    unfold decode. rewrite Hb, Ht.
    destruct (utf8_decode (c_stdout proc)); [| reflexivity].
    unfold ret. cbv beta iota.
    change (os_remove (with_stderr o b) p) with (os_remove o p).
    destruct (os_remove o p _) as [[u4 | e4] w4]; [| reflexivity].
    rewrite Hrc. reflexivity.
  - change (materialize (with_stdout o b) script_text)
      with (materialize o script_text).
    destruct (materialize o script_text w0) as [[p | e1] w1];
      [| reflexivity].
    destruct (info ctx (lit "Executing install script: " ++ p) w1)
      as [[u2 | e2] w2]; [| reflexivity].
    change (create_subprocess_exec (with_stdout o b) [lit "bash"; p])
      with (create_subprocess_exec o [lit "bash"; p]).
    destruct (create_subprocess_exec o [lit "bash"; p] w2)
      as [[u3 | e3] w3]; [| reflexivity].
    unfold communicate. cbn [comm_result child_fs with_stdout].
    rewrite Hcomm. cbn [c_stdout c_stderr c_returncode].
    unfold decode. rewrite Hb, Ht.
    destruct (utf8_decode (c_stderr proc)); [| reflexivity].
    unfold ret. cbv beta iota.
    change (os_remove (with_stdout o b) p) with (os_remove o p).
    destruct (os_remove o p _) as [[u4 | e4] w4]; [| reflexivity].
    apply Z.eqb_neq in Hrc. rewrite Hrc. reflexivity.
Qed.

Lemma only_one_stream_is_reported_witness :
  @run_install_script caseless_runtime
    (with_stderr (quiet_oracle [x6f; x6b] 0) [x6f; x6f; x70; x73])
    (lit "echo -n ok; echo -n oops >&2") None empty_world
  = @run_install_script caseless_runtime (quiet_oracle [x6f; x6b] 0)
      (lit "echo -n ok; echo -n oops >&2") None empty_world.
Proof.
  apply (proj1 (@only_one_stream_is_reported caseless_runtime
                  (quiet_oracle [x6f; x6b] 0)
                  (lit "echo -n ok; echo -n oops >&2") None empty_world
                  {| c_stdout := [x6f; x6b]; c_stderr := [];
                     c_returncode := 0 |}
                  [x6f; x6f; x70; x73] [] (lit "oops")
                  eq_refl eq_refl) eq_refl eq_refl).
Defined.

(** ** The summary of a completed run *)

Lemma lower_from_ascii {R : Runtime} (before s : pystr) :
  is_ascii s -> lower_from before s = map ascii_lower s.
Proof.
  intros Hs.
  pose proof (lower_from_ascii_app before s [] Hs) as H.
  rewrite app_nil_r in H. rewrite H. simpl. apply app_nil_r.
Qed.








Lemma is_ascii_checked (s : pystr) :
  forallb (fun c => c <? 128) s = true -> is_ascii s.
Proof.
  induction s as [|c s IH]; simpl; [constructor |].
  intros H. apply andb_true_iff in H as [Hc Hs].
  constructor; [apply N.ltb_lt, Hc | apply IH, Hs].
Qed.


Section Summary.
Context {R : Runtime}.
Hypothesis Hmarks : marks_caseless R.






End Summary.


(** ** The shapes of the orchestrator's answer *)

Lemma run_install_script_Ok {R : Runtime} (o : oracle)
    (script_text : pystr) (ctx : option Context) (w : world)
    (res : pystr) (w' : world) :
  run_install_script o script_text ctx w = (Ok res, w') ->
  (exists proc output error,
      comm_result o = inr proc /\
      utf8_decode (c_stdout proc) = Some output /\
      utf8_decode (c_stderr proc) = Some error /\
      res = completed_report (c_returncode proc) output error) \/
  (exists e, is_Exception e = true /\ res = error_report e).
Proof.
  unfold run_install_script, bind, try_except.
  destruct (info ctx _ w) as [[u | e0] w0]; [| discriminate].
  destruct (run_install_script_try o script_text ctx w0)
    as [[x | e] w1] eqn:Htry.
  - intros [= <- <-]. left.
    apply run_install_script_try_Ok in Htry
      as (proc & output & error & Hp & Ho & He & Hr & _).
    exists proc, output, error. auto.
  - destruct (is_Exception e) eqn:He; [| discriminate].
    intros [= <- <-]. right. eauto.
Qed.

(** Whatever the script and the host, [install_from_llm_script] ends in
    one of three ways. It lets through an exception that is not an
    [Exception] (a cancellation). Or the script holds a denylisted
    substring and the answer is the rejection report, with the world
    untouched. Or the script was accepted and the answer is the heading
    "=== Installation Result ===", the report of the run, an empty line,
    the heading "=== Summary ===" and the summary of that same report,
    where the report of the run is the success report, the failure
    report or the handler's error report. No [Exception] ever reaches the
    caller. *)
Theorem install_answer_shapes {R : Runtime} (o : oracle)
    (script_text : pystr) (ctx : option Context) (w : world) :
  let r := fst (install_from_llm_script o script_text ctx w) in
  let w' := snd (install_from_llm_script o script_text ctx w) in
  (exists e, r = Raise e /\ is_Exception e = false) \/
  (exists bad,
      In bad blacklist /\ occurs bad script_text /\
      r = Ok ([0x274C] ++ lit " Detected unsafe command: `" ++ bad
                ++ lit "`" ++ [10] ++ lit "Aborting installation.") /\
      w' = w) \/
  (accepts script_text /\
   exists res,
     r = Ok (lit "=== Installation Result ===" ++ [10] ++ res ++ [10]
               ++ [10] ++ lit "=== Summary ===" ++ [10]
               ++ summarize_result res) /\
     ((exists proc output error,
          comm_result o = inr proc /\
          utf8_decode (c_stdout proc) = Some output /\
          utf8_decode (c_stderr proc) = Some error /\
          res = (if (c_returncode proc =? 0)%Z
                 then [0x2705] ++ lit " Installation succeeded:" ++ [10]
                        ++ [10] ++ strip output
                 else [0x274C] ++ lit " Installation failed (exit code "
                        ++ str_of_int (c_returncode proc) ++ lit "):"
                        ++ [10] ++ [10] ++ strip error)) \/
      (exists e,
          is_Exception e = true /\
          res = [0x274C] ++ lit " Error during installation: "
                  ++ str_exn e))).
Proof.
  cbv zeta.
  destruct (first_unsafe blacklist script_text) as [bad|] eqn:E.
  - right. left. exists bad.
    destruct (first_unsafe_In _ _ _ E) as [Hin Hocc].
    assert (Hinst : install_from_llm_script o script_text ctx w
                    = (Ok (unsafe_report bad), w)).
    { unfold install_from_llm_script, bind.
      rewrite (validate_script_rejects script_text ctx w bad E).
      rewrite cross_mark_in_unsafe_report. reflexivity. }
    rewrite Hinst. auto.
  - assert (Hacc : accepts script_text)
      by (apply accepts_iff, first_unsafe_None; exact E).
    assert (Hinst : install_from_llm_script o script_text ctx w
                    = run_stage o script_text ctx
                        (snd (info ctx (lit "Script validated successfully.")
                                w))).
    { unfold install_from_llm_script, run_stage, bind at 1.
      rewrite (validate_script_accepts script_text ctx w E).
      rewrite cross_mark_not_in_passed_report. reflexivity. }
    rewrite Hinst. unfold run_stage, bind.
    destruct (run_install_script o script_text ctx _)
      as [[res | e] w2] eqn:Hrun.
    + right. right. split; [exact Hacc |]. exists res.
      split; [reflexivity |].
      destruct (run_install_script_Ok _ _ _ _ _ _ Hrun)
        as [(proc & output & error & Hp & Ho & He & ->) | (e & He & ->)].
      * left. exists proc, output, error.
        repeat split; assumption.
      * right. exists e. split; [exact He | reflexivity].
    + left. exists e. split; [reflexivity |].
      exact (run_install_script_catches _ _ _ _ _ _ Hrun).
Qed.

(** ** The lookup tools *)

Lemma lower_ascii {R : Runtime} (s : pystr) :
  is_ascii s -> lower s = map ascii_lower s.
Proof. apply lower_from_ascii. Qed.

(** [recommend_os_stack] finds a purpose whatever the case of its ASCII
    letters, answers with the fixed fallback text for every purpose whose
    lower-cased form is not one of the four keys, and is the same
    function in both files. *)
Theorem recommend_os_stack_lookup {R : Runtime} (purpose : pystr) :
  (forall key rec,
      In (key, rec) recommendation_table ->
      is_ascii purpose ->
      map ascii_lower purpose = key ->
      recommend_os_stack purpose = rec) /\
  ((forall key rec, In (key, rec) recommendation_table ->
                    lower purpose <> key) ->
   recommend_os_stack purpose = no_recommendation) /\
  system_tools.recommend_os_stack purpose = recommend_os_stack purpose.
Proof.
  split; [| split; [| reflexivity]].
  - intros key rec Hin Hascii Hkey.
    unfold recommend_os_stack. rewrite (lower_ascii purpose Hascii), Hkey.
    destruct Hin as [[= <- <-] | [[= <- <-] | [[= <- <-] | [[= <- <-] | []]]]];
      vm_compute; reflexivity.
  - intros Hnone. unfold recommend_os_stack.
    rewrite not_elem_of_list_to_map_1; [reflexivity |].
    intros Hel. apply list_elem_of_In in Hel. simpl in Hel.
    destruct Hel as [H | [H | [H | [H | []]]]];
      symmetry in H; revert H; eapply Hnone; simpl; eauto 6.
Qed.

Lemma recommend_os_stack_lookup_witness :
  @recommend_os_stack caseless_runtime (lit "DevOps")
  = lit "Recommended stack: Ubuntu + Jenkins + GitLab + Ansible" /\
  @recommend_os_stack caseless_runtime (lit "dev ops") = no_recommendation.
Proof.
  pose (T1 := @recommend_os_stack_lookup caseless_runtime (lit "DevOps")).
  pose (T2 := @recommend_os_stack_lookup caseless_runtime (lit "dev ops")).
  split.
  - apply (proj1 T1 (lit "devops")).
    + simpl. auto 6.
    + apply is_ascii_checked. vm_compute. reflexivity.
    + vm_compute. reflexivity.
  - apply (proj1 (proj2 T2)).
    intros key rec [[= <- <-] | [[= <- <-] | [[= <- <-] | [[= <- <-] | []]]]];
      vm_compute; discriminate.
Defined.

Lemma get_normalized_os_idempotent (raw_system : pystr) :
  tools_system.get_normalized_os (tools_system.get_normalized_os raw_system)
  = tools_system.get_normalized_os raw_system.
Proof.
  unfold tools_system.get_normalized_os.
  destruct (bool_decide (raw_system = lit "Darwin")) eqn:E; [reflexivity |].
  rewrite E. reflexivity.
Qed.

Lemma get_normalized_os_not_Darwin (raw_system : pystr) :
  tools_system.get_normalized_os raw_system <> lit "Darwin".
Proof.
  unfold tools_system.get_normalized_os.
  destruct (bool_decide (raw_system = lit "Darwin")) eqn:E.
  - vm_compute. discriminate.
  - apply bool_decide_eq_false in E. exact E.
Qed.

(** Leaving out the system, or passing the empty string, is the same as
    passing the normalised name of the host's operating system: in both
    copies of [check_compatibility] the three calls return the same
    report and log the same line. The name has "MacOS" in place of
    "Darwin", and normalising it again changes nothing. *)
Theorem check_compatibility_detects_system {R : Runtime} (h : host)
    (component : pystr) (ctx : option Context) (w : world) :
  let detected := tools_system.get_normalized_os (platform_system h) in
  check_compatibility h component (Some []) ctx w
  = check_compatibility h component None ctx w /\
  check_compatibility h component (Some detected) ctx w
  = check_compatibility h component None ctx w /\
  tools_system.check_compatibility h component None ctx w
  = check_compatibility h component (Some detected) ctx w /\
  detected <> lit "Darwin" /\
  tools_system.get_normalized_os detected = detected.
Proof.
  cbv zeta.
  assert (H2 : check_compatibility h component
                 (Some (tools_system.get_normalized_os (platform_system h)))
                 ctx w
               = check_compatibility h component None ctx w).
  { unfold check_compatibility, tools_system.get_normalized_os.
    destruct (bool_decide (platform_system h = lit "Darwin")) eqn:E.
    - reflexivity.
    - cbn [truthy]. destruct (platform_system h) as [|c raw];
        cbn [default from_option id]; rewrite ?E; reflexivity. }
  split; [reflexivity |]. split; [exact H2 |].
  split; [rewrite H2; reflexivity |].
  split; [apply get_normalized_os_not_Darwin |
          apply get_normalized_os_idempotent].
Qed.

Lemma compatibility_lookup (key : pystr) (row : list pystr) :
  In (key, row) compatibility_table ->
  tools_system.COMPATIBILITY_MATRIX !! key = Some row.
Proof.
  intros [[= <- <-] | [[= <- <-] | [[= <- <-] | []]]];
    vm_compute; reflexivity.
Qed.

Lemma compatibility_lookup_None (key : pystr) :
  (forall k row, In (k, row) compatibility_table -> key <> k) ->
  tools_system.COMPATIBILITY_MATRIX !! key = None.
Proof.
  intros Hnone. unfold tools_system.COMPATIBILITY_MATRIX.
  apply not_elem_of_list_to_map_1.
  intros Hel. apply list_elem_of_In in Hel. simpl in Hel.
  destruct Hel as [H | [H | [H | []]]];
    symmetry in H; revert H; eapply Hnone; simpl; eauto 6.
Qed.

(** The verdict line of a compatibility report. The component is looked
    up by its lower-cased name; for a component of the table the line
    says "compatible" exactly when the system, spelled as in the table,
    is in its row; for every component outside the table, and for every
    system outside the row, it says "unknown or unverified". *)
Theorem compatibility_verdict {R : Runtime} (h : host)
    (component system : pystr) (ctx : option Context) (w : world) :
  system <> [] ->
  let report := fst (check_compatibility h component (Some system) ctx w) in
  let says status :=
    exists rest,
      report = Ok (component ++ lit " is " ++ status ++ lit " with "
                     ++ system ++ lit "." ++ NL ++ rest) in
  (forall key row,
      In (key, row) compatibility_table -> lower component = key ->
      In system row -> says (lit "compatible")) /\
  (forall key row,
      In (key, row) compatibility_table -> lower component = key ->
      ~ In system row -> says (lit "unknown or unverified")) /\
  ((forall key row, In (key, row) compatibility_table ->
                    lower component <> key) ->
   says (lit "unknown or unverified")).
Proof.
  intros Hsys. cbv zeta.
  destruct (check_compatibility_report h component system ctx w Hsys)
    as [tail [-> _]].
  unfold verdict_line. split; [| split].
  - intros key row Hin Hkey Hrow.
    rewrite Hkey, (compatibility_lookup key row Hin). cbn [default from_option id].
    rewrite bool_decide_eq_true_2 by (apply list_elem_of_In; exact Hrow).
    eexists. rewrite <- !app_assoc. reflexivity.
  - intros key row Hin Hkey Hrow.
    rewrite Hkey, (compatibility_lookup key row Hin). cbn [default from_option id].
    rewrite bool_decide_eq_false_2
      by (intros Hel; apply Hrow, list_elem_of_In; exact Hel).
    eexists. rewrite <- !app_assoc. reflexivity.
  - intros Hnone.
    rewrite compatibility_lookup_None by exact Hnone.
    cbn [default from_option id].
    rewrite bool_decide_eq_false_2 by (intros Hel; inversion Hel).
    eexists. rewrite <- !app_assoc. reflexivity.
Qed.

Lemma compatibility_verdict_witness :
  (exists rest,
      fst (@check_compatibility caseless_runtime ubuntu_22 (lit "NetBox")
             (Some (lit "Debian")) None empty_world)
      = Ok (lit "NetBox is compatible with Debian." ++ NL ++ rest)) /\
  (exists rest,
      fst (@check_compatibility caseless_runtime ubuntu_22 (lit "NetBox")
             (Some (lit "debian")) None empty_world)
      = Ok (lit "NetBox is unknown or unverified with debian." ++ NL
              ++ rest)) /\
  (exists rest,
      fst (@check_compatibility caseless_runtime ubuntu_22 (lit "nginx")
             (Some (lit "Debian")) None empty_world)
      = Ok (lit "nginx is unknown or unverified with Debian." ++ NL
              ++ rest)).
Proof.
  split; [| split].
  - apply (proj1 (@compatibility_verdict caseless_runtime ubuntu_22
                    (lit "NetBox") (lit "Debian") None empty_world
                    ltac:(discriminate))
             (lit "netbox") [lit "Ubuntu"; lit "Debian"; lit "Rocky"]).
    + simpl. auto.
    + vm_compute. reflexivity.
    + simpl. auto.
  - apply (proj1 (proj2 (@compatibility_verdict caseless_runtime ubuntu_22
                           (lit "NetBox") (lit "debian") None empty_world
                           ltac:(discriminate)))
             (lit "netbox") [lit "Ubuntu"; lit "Debian"; lit "Rocky"]).
    + simpl. auto.
    + vm_compute. reflexivity.
    + vm_compute. intuition discriminate.
  - apply (proj2 (proj2 (@compatibility_verdict caseless_runtime ubuntu_22
                           (lit "nginx") (lit "Debian") None empty_world
                           ltac:(discriminate)))).
    intros key row [[= <- <-] | [[= <- <-] | [[= <- <-] | []]]];
      vm_compute; discriminate.
Defined.

(** ** Detecting the system and building the prompt *)

Lemma os_info_lookups (a b c : pystr) :
  let d : gmap pystr pystr :=
    list_to_map [(lit "os", a); (lit "release", b); (lit "version", c)] in
  d !! lit "os" = Some a /\ d !! lit "release" = Some b /\
  d !! lit "version" = Some c.
Proof.
  cbv zeta. repeat split.
Qed.

Lemma detect_os_info_Ok (h : host) (ctx : option Context) (w : world) :
  exists w',
    detect_os_info h ctx w
    = (Ok (list_to_map
             [(lit "os", tools_system.get_normalized_os (platform_system h));
              (lit "release", platform_release h);
              (lit "version", platform_version h)]), w') /\
    fs w' = fs w /\ spawn_count (trace w') = spawn_count (trace w).
Proof.
  unfold detect_os_info, bind, info, log, ret. destruct ctx.
  - eexists. split; [reflexivity |]. cbn [fs trace].
    split; [reflexivity |].
    rewrite spawn_count_app, spawn_count_one. cbn [is_spawn]. lia.
  - eexists. split; [reflexivity |]. auto.
Qed.

(** [install_component_with_os_detection] installs nothing. Whatever the
    host and the component, it returns a text and raises nothing (the
    three keys the prompt reads are always in the detected [dict]), it
    leaves every file as it was and spawns no process. The text carries
    the component as given and the normalised system, release and
    version of the host. *)
Theorem install_component_only_builds_a_prompt (h : host)
    (component : pystr) (ctx : option Context) (w : world) :
  exists text w',
    install_component_with_os_detection h component ctx w = (Ok text, w') /\
    fs w' = fs w /\
    spawn_count (trace w') = spawn_count (trace w) /\
    occurs (lit "Component: " ++ component ++ NL ++ lit "OS: "
              ++ tools_system.get_normalized_os (platform_system h)
              ++ lit " " ++ platform_release h ++ lit " ("
              ++ platform_version h ++ lit ")") text.
Proof.
  destruct (detect_os_info_Ok h ctx w) as (w' & Hd & Hfs & Hsp).
  destruct (os_info_lookups
              (tools_system.get_normalized_os (platform_system h))
              (platform_release h) (platform_version h)) as (Ho & Hr & Hv).
  unfold install_component_with_os_detection, bind. rewrite Hd.
  unfold build_claude_prompt, getitem. rewrite Ho, Hr, Hv.
  eexists. exists w'. split; [reflexivity |].
  split; [exact Hfs |]. split; [exact Hsp |].
  cbn [join].
  do 2 apply occurs_suffix. apply occurs_app_r.
  do 4 apply occurs_suffix.
  match goal with
  | |- occurs ?x _ =>
    apply (eq_ind (x ++ prompt_requirements) (occurs x))
  end; [apply occurs_prefix | rewrite <- !app_assoc; reflexivity].
Qed.

Lemma requirements_mention_reboot :
  occurs (lit "reboot") prompt_requirements.
Proof. apply contains_spec. vm_compute. reflexivity. Qed.

(** The prompt names "reboot" among the commands to avoid, and "reboot"
    is on the denylist: so the text that
    [install_component_with_os_detection] returns is itself refused by
    [install_from_llm_script], for every component and host, and nothing
    is run when it is pasted back. *)
Theorem prompt_text_is_refused {R : Runtime} (o : oracle) (h : host)
    (component : pystr) (ctx ctx' : option Context) (w w0 : world) :
  exists text bad,
    fst (install_component_with_os_detection h component ctx w) = Ok text /\
    In bad blacklist /\ occurs bad text /\
    install_from_llm_script o text ctx' w0 = (Ok (unsafe_report bad), w0).
Proof.
  destruct (detect_os_info_Ok h ctx w) as (w' & Hd & _ & _).
  destruct (os_info_lookups
              (tools_system.get_normalized_os (platform_system h))
              (platform_release h) (platform_version h)) as (Ho & Hr & Hv).
  unfold install_component_with_os_detection, bind. rewrite Hd.
  unfold build_claude_prompt, getitem. rewrite Ho, Hr, Hv.
  cbn [fst ret join].
  match goal with
  | |- exists text bad, Ok ?t = Ok text /\ _ => set (text := t)
  end.
  assert (Hreboot : occurs (lit "reboot") text).
  { unfold text. do 2 apply occurs_suffix. apply occurs_app_r.
    do 14 apply occurs_suffix. exact requirements_mention_reboot. }
  assert (Hin : In (lit "reboot") blacklist) by (vm_compute; tauto).
  destruct (first_unsafe_hit blacklist text (lit "reboot") Hin Hreboot)
    as [bad E].
  destruct (first_unsafe_In _ _ _ E) as [Hbad Hocc].
  exists text, bad. split; [reflexivity |]. split; [exact Hbad |].
  split; [exact Hocc |].
  unfold install_from_llm_script, bind.
  rewrite (validate_script_rejects text ctx' w0 bad E).
  rewrite cross_mark_in_unsafe_report. reflexivity.
Qed.

(** ** The identity resource *)

Lemma app_sep_inj (a b x y : pystr) :
  one_line a -> one_line b ->
  a ++ NL ++ x = b ++ NL ++ y -> a = b /\ x = y.
Proof.
  unfold one_line, NL. revert b.
  induction a as [|c a IH]; intros [|d b] Ha Hb H; simpl in *.
  - injection H as <-. auto.
  - injection H as <- _. exfalso. apply Hb. auto.
  - injection H as -> _. exfalso. apply Ha. auto.
  - injection H as <- H.
    destruct (IH b) as [<- <-]; auto.
Qed.

(** The rendering of an identity loses nothing: two identities whose
    name, role and mission hold no line break render to the same text
    only if they are the same. *)
Theorem to_string_injective (i1 i2 : MorphogenIdentity) :
  one_line (name i1) -> one_line (role i1) -> one_line (mission i1) ->
  one_line (name i2) -> one_line (role i2) -> one_line (mission i2) ->
  (to_string i1 = to_string i2 <-> i1 = i2).
Proof.
  intros Hn1 Hr1 Hm1 Hn2 Hr2 Hm2. split; [| intros ->; reflexivity].
  destruct i1 as [n1 r1 m1 v1], i2 as [n2 r2 m2 v2].
  unfold to_string. cbn [name role mission version] in *. intros H.
  do 3 apply app_inv_head in H.
  apply app_sep_inj in H as [<- H]; [| assumption ..].
  apply app_inv_head in H.
  apply app_sep_inj in H as [<- H]; [| assumption ..].
  apply app_inv_head in H.
  apply app_sep_inj in H as [<- H]; [| assumption ..].
  apply app_inv_head in H. subst. reflexivity.
Qed.

Lemma to_string_injective_witness :
  get_identity <> resources_identity.get_identity.
Proof.
  unfold get_identity, resources_identity.get_identity. intros H.
  apply (proj1 (to_string_injective MorphogenIdentity_default
                  resources_identity.MorphogenIdentity_default
                  ltac:(vm_compute; intuition discriminate)
                  ltac:(vm_compute; intuition discriminate)
                  ltac:(vm_compute; intuition discriminate)
                  ltac:(vm_compute; intuition discriminate)
                  ltac:(vm_compute; intuition discriminate)
                  ltac:(vm_compute; intuition discriminate))) in H.
  vm_compute in H. discriminate H.
Defined.

(** ** Decoding, as far as the run gets *)




